(** * Legal AI Assistant: a shallow embedding of [legal_ai_app.py]

    The application is a Streamlit script: five input forms, each of which
    formats two prompt strings and hands them to [make_api_request], which
    performs one HTTPS POST.  The embedding keeps that shape:

    - Python [str] values are Rocq [string]s, read as sequences of code
      points below 256 (the Latin-1 range);
    - the module namespace that the drafting form reads with [locals()] is a
      [gmap string string];
    - raising and catching exceptions is an error monad, and the calls into
      Streamlit and [requests] are recorded as a trace of events. *)

From Stdlib Require Import ZArith QArith Ascii String List Bool Lia.
From stdpp Require Import base decidable option list strings pretty gmap.

Local Open Scope Z_scope.

(** ** Text *)

Module Text.

(** The line feed that separates the lines of a triple-quoted literal. *)
Definition nl : string := String (ascii_of_nat 10) EmptyString.

(** The single quote, the double quote and the backslash, used by [repr]. *)
Definition squote : ascii := ascii_of_nat 39.
Definition dquote : ascii := ascii_of_nat 34.
Definition backslash : ascii := ascii_of_nat 92.

Definition code (c : ascii) : Z := Z.of_nat (nat_of_ascii c).

(** [c.isspace()] for a code point below 256. *)
Definition isspace (c : ascii) : bool :=
  let n := code c in
  ((9 <=? n) && (n <=? 13)) || ((28 <=? n) && (n <=? 32))
  || (n =? 133) || (n =? 160).

(** [c.lower()] for a code point below 256: the ASCII capitals and the
    Latin-1 capitals other than the multiplication sign move up by 32. *)
Definition lower_char (c : ascii) : ascii :=
  let n := code c in
  if ((65 <=? n) && (n <=? 90))
     || ((192 <=? n) && (n <=? 222) && negb (n =? 215))
  then ascii_of_nat (Z.to_nat (n + 32))
  else c.

(** [s.lower()] *)
Fixpoint lower (s : string) : string :=
  match s with
  | EmptyString => EmptyString
  | String c s' => String (lower_char c) (lower s')
  end.

(** Truth value of a [str]: every string but the empty one is true. *)
Definition truthy (s : string) : bool :=
  match s with
  | EmptyString => false
  | String _ _ => true
  end.

(** [s.lstrip()] *)
Fixpoint lstrip (s : string) : string :=
  match s with
  | EmptyString => EmptyString
  | String c s' => if isspace c then lstrip s' else s
  end.

(** [s.rstrip()] *)
Fixpoint rstrip (s : string) : string :=
  match s with
  | EmptyString => EmptyString
  | String c s' =>
      let r := rstrip s' in
      if isspace c && negb (truthy r) then EmptyString else String c r
  end.

(** [s.strip()] *)
Definition strip (s : string) : string := rstrip (lstrip s).

(** [sep.join(xs)] *)
Fixpoint join (sep : string) (xs : list string) : string :=
  match xs with
  | [] => EmptyString
  | [x] => x
  | x :: rest => x +:+ sep +:+ join sep rest
  end.

(** [s.replace(a, b)] for one-character [a] and [b]. *)
Fixpoint replace_char (a b : ascii) (s : string) : string :=
  match s with
  | EmptyString => EmptyString
  | String c s' =>
      String (if Ascii.eqb c a then b else c) (replace_char a b s')
  end.

(** [s.split(sep)[-1]] for a one-character [sep]: the text after the last
    separator, the whole of [s] when there is none.  [acc] holds the characters
    read since the last separator. *)
Fixpoint last_field_from (sep : ascii) (acc : string) (s : string) : string :=
  match s with
  | EmptyString => acc
  | String c s' =>
      if Ascii.eqb c sep then last_field_from sep EmptyString s'
      else last_field_from sep (acc +:+ String c EmptyString) s'
  end.

Definition last_field (sep : ascii) (s : string) : string :=
  last_field_from sep EmptyString s.

(** [p in s] on strings. *)
Fixpoint startswith (s p : string) {struct p} : bool :=
  match p, s with
  | EmptyString, _ => true
  | String _ _, EmptyString => false
  | String a p', String b s' => Ascii.eqb a b && startswith s' p'
  end.

Fixpoint contains (s p : string) : bool :=
  startswith s p
  || match s with
     | EmptyString => false
     | String _ s' => contains s' p
     end.

(** The same, as a proposition: [p] occurs in [s]. *)
Definition occurs_in (p s : string) : Prop :=
  exists pre post : string, s = pre +:+ p +:+ post.

(** Number of occurrences of the character [c] in [s]: [s.count(c)]. *)
Fixpoint count_char (c : ascii) (s : string) : nat :=
  match s with
  | EmptyString => 0%nat
  | String a s' => ((if Ascii.eqb a c then 1 else 0) + count_char c s')%nat
  end.

(** Lower-case hexadecimal digit. *)
Definition hex_digit (n : Z) : ascii :=
  if n <? 10 then ascii_of_nat (Z.to_nat (48 + n))
  else ascii_of_nat (Z.to_nat (87 + n)).

(** [c.isprintable()] for a code point below 256. *)
Definition isprintable (c : ascii) : bool :=
  let n := code c in
  ((32 <=? n) && (n <=? 126)) || ((161 <=? n) && negb (n =? 173)).

(** One character of [repr(s)], inside quotes of kind [q]. *)
Definition repr_char (q : ascii) (c : ascii) : string :=
  let n := code c in
  if Ascii.eqb c q || Ascii.eqb c backslash
  then String backslash (String c EmptyString)
  else if n =? 9 then String backslash "t"
  else if n =? 10 then String backslash "n"
  else if n =? 13 then String backslash "r"
  else if isprintable c then String c EmptyString
  else String backslash
         (String "x" (String (hex_digit (n / 16))
                        (String (hex_digit (n mod 16)) EmptyString))).

Fixpoint repr_body (q : ascii) (s : string) : string :=
  match s with
  | EmptyString => EmptyString
  | String c s' => repr_char q c +:+ repr_body q s'
  end.

Fixpoint has_char (c : ascii) (s : string) : bool :=
  match s with
  | EmptyString => false
  | String a s' => Ascii.eqb a c || has_char c s'
  end.

(** [repr(s)] of a [str]: single quotes, unless the text has a single quote
    and no double quote. *)
Definition repr (s : string) : string :=
  let q := if has_char squote s && negb (has_char dquote s)
           then dquote else squote in
  String q (repr_body q s +:+ String q EmptyString).

(** [repr(xs)] of a list of [str], as an f-string renders [{xs}]. *)
Definition repr_list (xs : list string) : string :=
  "[" +:+ join ", " (map repr xs) +:+ "]".

End Text.

Import Text.

(** ** Exceptions and effects *)

(** The instances of [Exception] that the script can meet.  [RequestException]
    stands for [requests.exceptions.RequestException] and all of its
    subclasses but [HTTPError], which [raise_for_status] raises. *)
Inductive exn : Type :=
| RequestException (detail : string)
| HTTPError (detail : string)
| KeyError (key_repr : string)
| IndexError (detail : string)
| TypeError (detail : string)
| NameError (name : string)
| OtherException (detail : string).

(** [isinstance(e, requests.exceptions.RequestException)] *)
Definition is_RequestException (e : exn) : bool :=
  match e with
  | RequestException _ | HTTPError _ => true
  | _ => false
  end.

(** [str(e)] *)
Definition str_exn (e : exn) : string :=
  match e with
  | RequestException d | HTTPError d | IndexError d | TypeError d
  | OtherException d => d
  | KeyError k => k
  | NameError n => "name '" +:+ n +:+ "' is not defined"
  end.

(** What evaluating an expression gives: a value, or a raised exception. *)
Inductive outcome (A : Type) : Type :=
| Ok (a : A)
| Raise (e : exn).
Arguments Ok {A} a.
Arguments Raise {A} e.

(** Values decoded from, or encoded to, JSON; [JNull] is Python's [None]. *)
#[warnings="-register-all"]
Inductive json : Type :=
| JNull
| JBool (b : bool)
| JInt (n : Z)
| JReal (q : Q)
| JStr (s : string)
| JArr (items : list json)
| JObj (fields : list (string * json)).

(** Truth value of such a value, as [if result:] tests it. *)
Definition json_truthy (v : json) : bool :=
  match v with
  | JNull => false
  | JBool b => b
  | JInt n => negb (n =? 0)
  | JReal q => negb (Qnum q =? 0)
  | JStr s => truthy s
  | JArr items => match items with [] => false | _ => true end
  | JObj fields => match fields with [] => false | _ => true end
  end.

Fixpoint assoc {V : Type} (k : string) (kvs : list (string * V)) : option V :=
  match kvs with
  | [] => None
  | (k', v) :: rest => if String.eqb k' k then Some v else assoc k rest
  end.

Definition not_subscriptable (ty : string) : exn :=
  TypeError ("'" +:+ ty +:+ "' object is not subscriptable").

(** [v[k]] for a [str] subscript. *)
Definition getitem_key (v : json) (k : string) : outcome json :=
  match v with
  | JObj fields =>
      match assoc k fields with
      | Some x => Ok x
      | None => Raise (KeyError (repr k))
      end
  | JArr _ => Raise (TypeError "list indices must be integers or slices, not str")
  | JStr _ => Raise (TypeError "string indices must be integers, not 'str'")
  | JNull => Raise (not_subscriptable "NoneType")
  | JBool _ => Raise (not_subscriptable "bool")
  | JInt _ => Raise (not_subscriptable "int")
  | JReal _ => Raise (not_subscriptable "float")
  end.

(** [v[0]] *)
Definition getitem_0 (v : json) : outcome json :=
  match v with
  | JArr items =>
      match items with
      | x :: _ => Ok x
      | [] => Raise (IndexError "list index out of range")
      end
  | JObj _ => Raise (KeyError "0")
  | JStr s =>
      match s with
      | String c _ => Ok (JStr (String c EmptyString))
      | EmptyString => Raise (IndexError "string index out of range")
      end
  | JNull => Raise (not_subscriptable "NoneType")
  | JBool _ => Raise (not_subscriptable "bool")
  | JInt _ => Raise (not_subscriptable "int")
  | JReal _ => Raise (not_subscriptable "float")
  end.

(** The keyword arguments of [requests.post]. *)
Record request : Type := mk_request {
  url : string;
  headers : list (string * string);
  json_arg : json;
  timeout : Z
}.

(** What the script reads of a [requests.Response]. *)
Record response : Type := mk_response {
  status_code : Z;
  reason : string;
  response_url : string;
  response_json : outcome json
}.

(** The network: what [requests.post] returns or raises for a request. *)
Definition transport : Type := request -> outcome response.

(** Calls that leave the script, in the order they are made. *)
Inductive event : Type :=
| st_error (body : string)
| st_warning (body : string)
| st_markdown (body : json) (unsafe_allow_html : bool)
| st_spinner (text : string)
| st_download_button (label : string) (data : json) (file_name mime : string)
| requests_post (r : request).

(** A computation: the events it emitted, then its outcome. *)
Definition io (A : Type) : Type := list event * outcome A.

Definition ret {A : Type} (a : A) : io A := ([], Ok a).

Definition raise {A : Type} (e : exn) : io A := ([], Raise e).

Definition bind {A B : Type} (m : io A) (k : A -> io B) : io B :=
  match m with
  | (tr, Ok a) => let '(tr', r) := k a in (tr ++ tr', r)
  | (tr, Raise e) => (tr, Raise e)
  end.

Definition emit (ev : event) : io unit := ([ev], Ok tt).

Definition lift {A : Type} (o : outcome A) : io A := ([], o).

(** [try: m  except Exception as e: h e] *)
Definition try_except {A : Type} (m : io A) (h : exn -> io A) : io A :=
  match m with
  | (tr, Ok a) => (tr, Ok a)
  | (tr, Raise e) => let '(tr', r) := h e in (tr ++ tr', r)
  end.

Notation "x <- m ;; k" := (bind m (fun x => k))
  (at level 100, m at next level, right associativity).
Notation "m ;;; k" := (bind m (fun _ => k))
  (at level 100, right associativity).

Definition trace {A : Type} (m : io A) : list event := fst m.
Definition result {A : Type} (m : io A) : outcome A := snd m.

(** The requests among the events of a trace. *)
Fixpoint posts (tr : list event) : list request :=
  match tr with
  | [] => []
  | requests_post r :: rest => r :: posts rest
  | _ :: rest => posts rest
  end.

(** ** The completion call *)

(** [st.session_state] *)
Record session_state : Type := mk_session { api_key : string }.

(** [Response.raise_for_status], as the [requests] library defines it: a
    status from 400 to 599 raises [HTTPError]. *)
Definition raise_for_status (r : response) : outcome unit :=
  if (400 <=? status_code r) && (status_code r <? 500) then
    Raise (HTTPError (pretty (status_code r) +:+ " Client Error: " +:+ reason r
                      +:+ " for url: " +:+ response_url r))
  else if (500 <=? status_code r) && (status_code r <? 600) then
    Raise (HTTPError (pretty (status_code r) +:+ " Server Error: " +:+ reason r
                      +:+ " for url: " +:+ response_url r))
  else Ok tt.

(** The URL that the script posts to. *)
Definition endpoint : string := "https://openrouter.ai/api/v1/chat/completions".

(** The dictionary [headers]. *)
Definition request_headers (st : session_state) : list (string * string) :=
  [ ("Authorization", "Bearer " +:+ api_key st);
    ("Content-Type", "application/json") ].

(** The dictionary [data]; [3 # 10] is the literal [0.3]. *)
Definition request_data (prompt system_prompt : string) : json :=
  JObj [ ("model", JStr "openai/gpt-4o-mini");
         ("messages",
          JArr [ JObj [("role", JStr "system"); ("content", JStr system_prompt)];
                 JObj [("role", JStr "user"); ("content", JStr prompt)] ]);
         ("max_tokens", JInt 2000);
         ("temperature", JReal (3 # 10)) ].

(** [requests.post(...)]: the call is recorded, the network answers. *)
Definition post (net : transport) (r : request) : io response :=
  emit (requests_post r) ;;; lift (net r).

(** [make_api_request(prompt, system_prompt)] *)
Definition make_api_request (st : session_state) (net : transport)
    (prompt system_prompt : string) : io json :=
  if negb (truthy (api_key st)) then
    emit (st_error "Please enter your OpenRouter API key in the sidebar.") ;;;
    ret JNull
  else
    let headers := request_headers st in
    let data := request_data prompt system_prompt in
    try_except
      (response <- post net (mk_request endpoint headers data 60) ;;
       lift (raise_for_status response) ;;;
       body <- lift (response_json response) ;;
       choices <- lift (getitem_key body "choices") ;;
       first <- lift (getitem_0 choices) ;;
       message <- lift (getitem_key first "message") ;;
       lift (getitem_key message "content"))
      (fun e =>
         if is_RequestException e then
           emit (st_error ("API request failed: " +:+ str_exn e)) ;;;
           ret JNull
         else
           emit (st_error ("An error occurred: " +:+ str_exn e)) ;;;
           ret JNull).

(** ** The five forms *)

(** Truth value of a list, as [x if xs else y] tests it. *)
Definition nonempty {A : Type} (xs : list A) : bool :=
  match xs with
  | [] => false
  | _ :: _ => true
  end.

(** [str(b)] of a [bool], as an f-string renders it. *)
Definition str_bool (b : bool) : string := if b then "True" else "False".

(** *** Contract Analysis & Review *)

(** [system_prompt] of the contract form. *)
Definition contract_system_prompt (analysis_type : string)
    (focus_areas : list string) (contract_type : string) : string :=
  "You are an expert legal contract analyst. Analyze the provided contract with focus on " +:+ lower analysis_type +:+ ". " +:+ nl +:+
  "            Pay special attention to: " +:+ (if nonempty focus_areas then join ", " focus_areas else "all standard contract provisions") +:+ "." +:+ nl +:+
  "            This appears to be a " +:+ lower contract_type +:+ " contract." +:+ nl +:+
  "            " +:+ nl +:+
  "            Provide a structured analysis including:" +:+ nl +:+
  "            1. Executive Summary" +:+ nl +:+
  "            2. Key Terms and Conditions" +:+ nl +:+
  "            3. Potential Risks and Red Flags" +:+ nl +:+
  "            4. Recommendations" +:+ nl +:+
  "            5. Missing Clauses (if any)" +:+ nl +:+
  "            " +:+ nl +:+
  "            Format your response clearly with headings and bullet points.".

(** *** Legal Document Drafting *)

(** The module namespace, restricted to the names that hold text. *)
Abbreviation namespace := (gmap string string).

(** Reading the name [x]: [NameError] when it is not bound. *)
Definition load (ns : namespace) (x : string) : io string :=
  match ns !! x with
  | Some v => ret v
  | None => raise (NameError x)
  end.

(** ['x' in locals()] at module level. *)
Definition in_locals (ns : namespace) (x : string) : bool :=
  bool_decide (is_Some (ns !! x)).

(** [x if x else d] *)
Definition load_or (ns : namespace) (x d : string) : io string :=
  test <- load ns x ;;
  if truthy test then load ns x else ret d.

(** [x if 'x' in locals() else d] *)
Definition load_if_bound (ns : namespace) (x d : string) : io string :=
  if in_locals ns x then load ns x else ret d.

(** The names bound when the drafting form has run its widgets: [duration]
    and [compensation] are assigned under the test on [document_type]. *)
Definition drafting_namespace (document_type document_details duration
    compensation jurisdiction parties : string) : namespace :=
  let ns0 : namespace :=
    <["document_details" := document_details]>
      (<["document_type" := document_type]>
         (<["function_choice" := "Legal Document Drafting"]> ∅)) in
  let ns1 : namespace :=
    if bool_decide (document_type ∈ ["Employment Contract"; "Service Agreement"])
    then <["compensation" := compensation]> (<["duration" := duration]> ns0)
    else ns0 in
  <["parties" := parties]> (<["jurisdiction" := jurisdiction]> ns1).

(** [system_prompt] of the drafting form. *)
Definition drafting_system_prompt (ns : namespace) : io string :=
  document_type <- load ns "document_type" ;;
  jurisdiction <- load_or ns "jurisdiction" "general" ;;
  ret (
    "You are an expert legal document drafter. Create a comprehensive " +:+ document_type +:+ " based on the provided requirements." +:+ nl +:+
    "            " +:+ nl +:+
    "            Include standard legal provisions appropriate for this document type, considering the jurisdiction: " +:+ jurisdiction +:+ "." +:+ nl +:+
    "            " +:+ nl +:+
    "            Structure the document professionally with:" +:+ nl +:+
    "            1. Title and parties identification" +:+ nl +:+
    "            2. Recitals/Background" +:+ nl +:+
    "            3. Main terms and conditions" +:+ nl +:+
    "            4. Standard legal clauses" +:+ nl +:+
    "            5. Signature blocks" +:+ nl +:+
    "            " +:+ nl +:+
    "            Make it legally sound but clearly written. Include appropriate legal disclaimers.").

(** [full_prompt] of the drafting form. *)
Definition drafting_full_prompt (ns : namespace) : io string :=
  document_type <- load ns "document_type" ;;
  document_details <- load ns "document_details" ;;
  parties <- load_or ns "parties" "Not specified" ;;
  jurisdiction <- load_or ns "jurisdiction" "Not specified" ;;
  duration <- load_if_bound ns "duration" "N/A" ;;
  compensation <- load_if_bound ns "compensation" "N/A" ;;
  ret (
    "Document Type: " +:+ document_type +:+ nl +:+
    "            Details: " +:+ document_details +:+ nl +:+
    "            Parties: " +:+ parties +:+ nl +:+
    "            Jurisdiction: " +:+ jurisdiction +:+ nl +:+
    "            Additional Info: Duration: " +:+ duration +:+ ", Compensation: " +:+ compensation).

(** *** Case Law Research Assistant *)

(** [system_prompt] of the research form. *)
Definition research_system_prompt (jurisdiction_filter : list string)
    (case_type time_period : string) : string :=
  "You are an expert Malaysia legal researcher. Research and provide information about relevant case law for the given legal issue." +:+ nl +:+
  "            " +:+ nl +:+
  "            Focus on: " +:+ (if nonempty jurisdiction_filter then join ", " jurisdiction_filter else "all jurisdictions") +:+ nl +:+
  "            Case type: " +:+ case_type +:+ nl +:+
  "            Time period: " +:+ time_period +:+ nl +:+
  "            " +:+ nl +:+
  "            Provide a comprehensive research summary including:" +:+ nl +:+
  "            1. Most relevant landmark/precedent cases" +:+ nl +:+
  "            2. Key legal principles established" +:+ nl +:+
  "            3. Recent developments or trends" +:+ nl +:+
  "            4. Distinguishing factors and exceptions" +:+ nl +:+
  "            5. Practical applications and implications" +:+ nl +:+
  "            " +:+ nl +:+
  "            Cite cases properly and explain their relevance to the issue.".

(** [research_query] *)
Definition research_query (legal_issue case_context : string)
    (jurisdiction_filter : list string) (case_type time_period : string) : string :=
  "Legal Issue: " +:+ legal_issue +:+ nl +:+
  "            Context: " +:+ (if truthy case_context then case_context else "Not provided") +:+ nl +:+
  "            Research Parameters: Jurisdiction: " +:+ repr_list jurisdiction_filter +:+ ", Type: " +:+ case_type +:+ ", Period: " +:+ time_period.

(** *** Legal Memorandum Generator *)

(** [system_prompt] of the memorandum form. *)
Definition memo_system_prompt (memo_type analysis_depth priority : string)
    (include_recommendations : bool) : string :=
  "You are an expert legal writer creating a professional legal memorandum. " +:+ nl +:+
  "            " +:+ nl +:+
  "            Create a " +:+ lower memo_type +:+ " with " +:+ lower analysis_depth +:+ " level of detail." +:+ nl +:+
  "            Priority: " +:+ priority +:+ nl +:+
  "            Include recommendations: " +:+ str_bool include_recommendations +:+ nl +:+
  "            " +:+ nl +:+
  "            Structure the memorandum professionally:" +:+ nl +:+
  "            1. Header (To, From, Date, Subject)" +:+ nl +:+
  "            2. Executive Summary" +:+ nl +:+
  "            3. Statement of Facts" +:+ nl +:+
  "            4. Legal Analysis" +:+ nl +:+
  "            5. Conclusion" +:+ nl +:+
  "            " +:+ (if include_recommendations then "6. Recommendations" else "") +:+ nl +:+
  "            " +:+ nl +:+
  "            Use proper legal writing style with clear headings and logical flow.".

(** [memo_content] *)
Definition memo_content (memo_to memo_from memo_subject memo_type facts
    legal_question : string) : string :=
  "MEMORANDUM DETAILS:" +:+ nl +:+
  "            To: " +:+ memo_to +:+ nl +:+
  "            From: " +:+ memo_from +:+ nl +:+
  "            Subject: " +:+ memo_subject +:+ nl +:+
  "            Type: " +:+ memo_type +:+ nl +:+
  "            " +:+ nl +:+
  "            Facts: " +:+ facts +:+ nl +:+
  "            Legal Questions: " +:+ legal_question.

(** *** Regulatory Compliance Checker *)

(** [system_prompt] of the compliance form. *)
Definition compliance_system_prompt (industry business_size : string)
    (geographic_scope compliance_areas : list string) : string :=
  "You are an expert regulatory compliance consultant. Analyze the provided business description for compliance requirements in the " +:+ industry +:+ " sector." +:+ nl +:+
  "            " +:+ nl +:+
  "            Consider:" +:+ nl +:+
  "            - Business size: " +:+ business_size +:+ nl +:+
  "            - Geographic scope: " +:+ (if nonempty geographic_scope then join ", " geographic_scope else "Not specified") +:+ nl +:+
  "            - Focus areas: " +:+ (if nonempty compliance_areas then join ", " compliance_areas else "General compliance") +:+ nl +:+
  "            " +:+ nl +:+
  "            Provide a comprehensive compliance analysis including:" +:+ nl +:+
  "            1. Applicable Regulations and Laws" +:+ nl +:+
  "            2. Current Compliance Status Assessment" +:+ nl +:+
  "            3. Required Actions and Documentation" +:+ nl +:+
  "            4. Risk Areas and Potential Violations" +:+ nl +:+
  "            5. Implementation Timeline and Priorities" +:+ nl +:+
  "            6. Ongoing Compliance Requirements" +:+ nl +:+
  "            " +:+ nl +:+
  "            Be specific about regulatory requirements and practical steps.".

(** [compliance_query] *)
Definition compliance_query (industry business_description specific_concerns
    business_size : string) (geographic_scope compliance_areas : list string) : string :=
  "Industry: " +:+ industry +:+ nl +:+
  "            Business Description: " +:+ business_description +:+ nl +:+
  "            Specific Concerns: " +:+ (if truthy specific_concerns then specific_concerns else "General compliance review") +:+ nl +:+
  "            Business Context: Size: " +:+ business_size +:+ ", Geographic: " +:+ repr_list geographic_scope +:+ ", Focus: " +:+ repr_list compliance_areas.

(** ** The handlers *)

(** Constant texts with a double quote or with characters beyond the range
    of the text model; the script only passes them on. *)
Definition result_box_open : string :=
  "<div class=" +:+ String dquote ("result-box" +:+ String dquote ">").
Definition warning_box_open : string :=
  "<div class=" +:+ String dquote ("warning-box" +:+ String dquote ">").
Definition important_notice : string :=
  "**⚠️ Important Notice:** This analysis is for informational purposes only. "
  +:+ "Consult with qualified legal and compliance professionals for specific advice "
  +:+ "and to ensure full regulatory compliance.".

(** The four [st.markdown] calls that show a result under a heading. *)
Definition show_result (heading : string) (result : json) : io unit :=
  emit (st_markdown (JStr result_box_open) true) ;;;
  emit (st_markdown (JStr heading) false) ;;;
  emit (st_markdown result false) ;;;
  emit (st_markdown (JStr "</div>") true).

(** An uploaded file: its name, and what the two parsing libraries make of
    its bytes.  [PdfReader] gives the pages, each with the outcome of
    [extract_text()]; [Document] gives the text of the paragraphs. *)
Record upload : Type := mk_upload {
  name : string;
  PdfReader : outcome (list (outcome (option string)));
  Document : outcome (list string)
}.

(** [t or ""] for the value of [page.extract_text()]. *)
Definition or_empty (t : option string) : string :=
  match t with
  | Some s => if truthy s then s else EmptyString
  | None => EmptyString
  end.

(** The generator [page.extract_text() or "" for page in pdf_reader.pages],
    consumed by [join]: the first page that raises ends it. *)
Fixpoint page_texts (pages : list (outcome (option string))) : outcome (list string) :=
  match pages with
  | [] => Ok []
  | Ok t :: rest =>
      match page_texts rest with
      | Ok ts => Ok (or_empty t :: ts)
      | Raise e => Raise e
      end
  | Raise e :: _ => Raise e
  end.

(** The value of [contract_text] after the upload widget and the text area. *)
Definition read_contract (uploaded_file : option upload) (text_area : string) : io string :=
  match uploaded_file with
  | Some f =>
      let file_type := lower (last_field "." (name f)) in
      if String.eqb file_type "pdf" then
        try_except
          (pages <- lift (PdfReader f) ;;
           texts <- lift (page_texts pages) ;;
           ret (join nl texts))
          (fun e =>
             emit (st_error ("Could not read PDF: " +:+ str_exn e)) ;;;
             ret EmptyString)
      else if String.eqb file_type "docx" then
        try_except
          (paragraphs <- lift (Document f) ;;
           ret (join nl paragraphs))
          (fun e =>
             emit (st_error ("Could not read DOCX: " +:+ str_exn e)) ;;;
             ret EmptyString)
      else ret EmptyString
  | None => ret text_area
  end.

Section Handlers.

(** The session, the network and the clock of one run of the script;
    [strftime fmt] is [datetime.now().strftime(fmt)]. *)
Variable st : session_state.
Variable net : transport.
Variable strftime : string -> string.

(** The body of [if st.button("Analyze Contract")]. *)
Definition analyze_contract (contract_text analysis_type : string)
    (focus_areas : list string) (contract_type : string) : io unit :=
  if truthy contract_text && truthy (strip contract_text) then
    let system_prompt := contract_system_prompt analysis_type focus_areas contract_type in
    emit (st_spinner "Analyzing contract...") ;;;
    result <- make_api_request st net contract_text system_prompt ;;
    if json_truthy result then show_result "### Analysis Results" result
    else ret tt
  else
    emit (st_warning "Please provide contract text or upload a contract file to analyze.").

(** The body of [if st.button("Generate Document")]. *)
Definition generate_document (ns : namespace) : io unit :=
  document_details <- load ns "document_details" ;;
  if truthy (strip document_details) then
    system_prompt <- drafting_system_prompt ns ;;
    full_prompt <- drafting_full_prompt ns ;;
    emit (st_spinner "Drafting document...") ;;;
    result <- make_api_request st net full_prompt system_prompt ;;
    if json_truthy result then
      show_result "### Generated Document" result ;;;
      document_type <- load ns "document_type" ;;
      emit (st_download_button "📥 Download Document" result
              (replace_char " " "_" document_type +:+ "_" +:+ strftime "%Y%m%d" +:+ ".txt")
              "text/plain")
    else ret tt
  else
    emit (st_warning "Please provide document details and requirements.").

(** The body of [if st.button("Research Cases")]. *)
Definition research_cases (legal_issue case_context : string)
    (jurisdiction_filter : list string) (case_type time_period : string) : io unit :=
  if truthy (strip legal_issue) then
    let system_prompt := research_system_prompt jurisdiction_filter case_type time_period in
    let query := research_query legal_issue case_context jurisdiction_filter case_type time_period in
    emit (st_spinner "Researching case law...") ;;;
    result <- make_api_request st net query system_prompt ;;
    if json_truthy result then show_result "### Case Law Research Results" result
    else ret tt
  else
    emit (st_warning "Please describe the legal issue you want to research.").

(** The body of [if st.button("Generate Memorandum")]. *)
Definition generate_memorandum (memo_to memo_from memo_subject facts
    legal_question memo_type priority analysis_depth : string)
    (include_recommendations : bool) : io unit :=
  if forallb truthy [memo_subject; facts; legal_question] then
    let system_prompt :=
      memo_system_prompt memo_type analysis_depth priority include_recommendations in
    let content :=
      memo_content memo_to memo_from memo_subject memo_type facts legal_question in
    emit (st_spinner "Generating memorandum...") ;;;
    result <- make_api_request st net content system_prompt ;;
    if json_truthy result then
      show_result "### Generated Legal Memorandum" result ;;;
      emit (st_download_button "📥 Download Memorandum" result
              ("Legal_Memo_" +:+ strftime "%Y%m%d_%H%M" +:+ ".txt")
              "text/plain")
    else ret tt
  else
    emit (st_warning "Please fill in all required fields (Subject, Facts, and Legal Questions).").

(** The body of [if st.button("Check Compliance")]. *)
Definition check_compliance (industry business_description specific_concerns
    business_size : string) (geographic_scope compliance_areas : list string) : io unit :=
  if truthy (strip business_description) then
    let system_prompt :=
      compliance_system_prompt industry business_size geographic_scope compliance_areas in
    let query :=
      compliance_query industry business_description specific_concerns
        business_size geographic_scope compliance_areas in
    emit (st_spinner "Analyzing compliance requirements...") ;;;
    result <- make_api_request st net query system_prompt ;;
    if json_truthy result then
      show_result "### Compliance Analysis Results" result ;;;
      emit (st_markdown (JStr warning_box_open) true) ;;;
      emit (st_markdown (JStr important_notice) false) ;;;
      emit (st_markdown (JStr "</div>") true)
    else ret tt
  else
    emit (st_warning "Please provide a business description to analyze compliance requirements.").

(** The form chosen in the select box, with the values of its widgets. *)
Inductive form : Type :=
| ContractAnalysis (uploaded_file : option upload) (text_area analysis_type : string)
    (focus_areas : list string) (contract_type : string)
| DocumentDrafting (document_type document_details duration compensation
    jurisdiction parties : string)
| CaseLawResearch (legal_issue case_context : string)
    (jurisdiction_filter : list string) (case_type time_period : string)
| MemorandumGenerator (memo_to memo_from memo_subject facts legal_question
    memo_type priority analysis_depth : string) (include_recommendations : bool)
| ComplianceChecker (industry business_description specific_concerns
    business_size : string) (geographic_scope compliance_areas : list string).

(** One run of the script below the select box; [clicked] is the value of
    the form's button. *)
Definition run (f : form) (clicked : bool) : io unit :=
  match f with
  | ContractAnalysis uploaded_file text_area analysis_type focus_areas contract_type =>
      contract_text <- read_contract uploaded_file text_area ;;
      if clicked
      then analyze_contract contract_text analysis_type focus_areas contract_type
      else ret tt
  | DocumentDrafting document_type document_details duration compensation
      jurisdiction parties =>
      let ns := drafting_namespace document_type document_details duration
                  compensation jurisdiction parties in
      if clicked then generate_document ns else ret tt
  | CaseLawResearch legal_issue case_context jurisdiction_filter case_type time_period =>
      if clicked
      then research_cases legal_issue case_context jurisdiction_filter case_type time_period
      else ret tt
  | MemorandumGenerator memo_to memo_from memo_subject facts legal_question
      memo_type priority analysis_depth include_recommendations =>
      if clicked
      then generate_memorandum memo_to memo_from memo_subject facts legal_question
             memo_type priority analysis_depth include_recommendations
      else ret tt
  | ComplianceChecker industry business_description specific_concerns
      business_size geographic_scope compliance_areas =>
      if clicked
      then check_compliance industry business_description specific_concerns
             business_size geographic_scope compliance_areas
      else ret tt
  end.

End Handlers.

(** ** Vocabulary of the properties *)

(** [p] is the beginning of [s]. *)
Definition begins (p s : string) : Prop := exists post : string, s = p +:+ post.

(** The request that [make_api_request] sends, spelled out. *)
Definition sent_request (st : session_state) (prompt system_prompt : string) : request :=
  {| url := "https://openrouter.ai/api/v1/chat/completions";
     headers := [ ("Authorization", "Bearer " +:+ api_key st);
                  ("Content-Type", "application/json") ];
     json_arg :=
       JObj [ ("model", JStr "openai/gpt-4o-mini");
              ("messages",
               JArr [ JObj [("role", JStr "system"); ("content", JStr system_prompt)];
                      JObj [("role", JStr "user"); ("content", JStr prompt)] ]);
              ("max_tokens", JInt 2000);
              ("temperature", JReal (3 # 10)) ];
     timeout := 60 |}.

(** A well-formed chat-completion body whose first choice says [content]. *)
Definition envelope (content : string) : json :=
  JObj [("choices", JArr [JObj [("message", JObj [("content", JStr content)])]])].

(** Every request among the events of [m] is one that [make_api_request]
    builds from this session's key. *)
Definition sends_only (st : session_state) {A : Type} (m : io A) : Prop :=
  forall req : request, In req (posts (trace m)) ->
    exists prompt system_prompt : string, req = sent_request st prompt system_prompt.

(** The warning of the memorandum form. *)
Definition memo_warning : event :=
  st_warning "Please fill in all required fields (Subject, Facts, and Legal Questions).".

(** The line feed, as a character. *)
Definition newline : ascii := ascii_of_nat 10.


(** Whether the drafting form shows the Duration and Compensation widgets. *)
Definition extra_fields (document_type : string) : bool :=
  bool_decide (document_type ∈ ["Employment Contract"; "Service Agreement"]).

(** The text of [full_prompt] for the values of the widgets. *)
Definition drafting_full_prompt_text (document_type document_details duration
    compensation jurisdiction parties : string) : string :=
  "Document Type: " +:+ document_type +:+ nl +:+
  "            Details: " +:+ document_details +:+ nl +:+
  "            Parties: " +:+ (if truthy parties then parties else "Not specified") +:+ nl +:+
  "            Jurisdiction: " +:+ (if truthy jurisdiction then jurisdiction else "Not specified") +:+ nl +:+
  "            Additional Info: Duration: " +:+ (if extra_fields document_type then duration else "N/A") +:+ ", Compensation: " +:+ (if extra_fields document_type then compensation else "N/A").

(** ** Further vocabulary: the session key, the option lists, the display *)

(** Every character of [s] is white space; the empty text included. *)
Fixpoint all_space (s : string) : bool :=
  match s with
  | EmptyString => true
  | String c s' => isspace c && all_space s'
  end.

(** The events that show an error, and those that show a result. *)
Definition is_error (ev : event) : bool :=
  match ev with
  | st_error _ => true
  | _ => false
  end.

Definition is_display (ev : event) : bool :=
  match ev with
  | st_markdown _ _ | st_download_button _ _ _ _ => true
  | _ => false
  end.

Definition is_post (ev : event) : bool :=
  match ev with
  | requests_post _ => true
  | _ => false
  end.

(** The events of [show_result]. *)
Definition result_display (heading : string) (v : json) : list event :=
  [ st_markdown (JStr result_box_open) true;
    st_markdown (JStr heading) false;
    st_markdown v false;
    st_markdown (JStr "</div>") true ].

(** The text of the drafting [system_prompt] for the values of the widgets. *)
Definition drafting_system_prompt_text (document_type jurisdiction : string) : string :=
  "You are an expert legal document drafter. Create a comprehensive " +:+ document_type +:+ " based on the provided requirements." +:+ nl +:+
  "            " +:+ nl +:+
  "            Include standard legal provisions appropriate for this document type, considering the jurisdiction: " +:+ (if truthy jurisdiction then jurisdiction else "general") +:+ "." +:+ nl +:+
  "            " +:+ nl +:+
  "            Structure the document professionally with:" +:+ nl +:+
  "            1. Title and parties identification" +:+ nl +:+
  "            2. Recitals/Background" +:+ nl +:+
  "            3. Main terms and conditions" +:+ nl +:+
  "            4. Standard legal clauses" +:+ nl +:+
  "            5. Signature blocks" +:+ nl +:+
  "            " +:+ nl +:+
  "            Make it legally sound but clearly written. Include appropriate legal disclaimers.".

(** [os.environ.get("OPENROUTER_API_KEY", "")] in the environment [environ]. *)
Definition environ_key (environ : gmap string string) : string :=
  default EmptyString (environ !! "OPENROUTER_API_KEY").

(** The initialisation of [st.session_state]: [stored] is the entry
    [api_key] kept from an earlier run of the script, [None] when there is
    none yet. *)
Definition init_session_state (environ : gmap string string)
    (stored : option string) : session_state :=
  match stored with
  | Some key => mk_session key
  | None => mk_session (environ_key environ)
  end.

(** What the sidebar does to the session state; [typed] is the value of the
    key input.  The sidebar's own display calls are constant and are not
    recorded. *)
Definition sidebar (environ : gmap string string) (typed : string)
    (st : session_state) : session_state :=
  if String.eqb (environ_key environ) EmptyString then
    let api_key_input := typed in
    if negb (String.eqb api_key_input (api_key st))
    then mk_session api_key_input
    else st
  else st.

(** One run of the whole script: the session state is initialised, the
    sidebar runs, then the chosen form. *)
Definition script (environ : gmap string string) (stored : option string)
    (typed : string) (net : transport) (strftime : string -> string)
    (f : form) (clicked : bool) : io unit :=
  run (sidebar environ typed (init_session_state environ stored)) net strftime
    f clicked.

(** The options of the multi-selects that the user prompts show. *)
Definition jurisdiction_options : list string :=
  ["Federal"; "Kuala Lumpur"; "Selangor"; "Putrajaya"; "Sabah"; "Sarawak"; "Other State"].

Definition geographic_options : list string :=
  ["United States"; "European Union"; "California"; "Canada"; "International"].

Definition compliance_area_options : list string :=
  ["Data Privacy"; "Financial Reporting"; "Employment Law"; "Environmental";
   "Safety Standards"; "Licensing"; "Tax Compliance"].

(** A text between single quotes. *)
Definition quoted (s : string) : string :=
  String squote (s +:+ String squote EmptyString).

(** The network answers the request [req] with a body that holds [content]
    at [choices[0].message.content], under a status that is no HTTP error. *)
Definition answers (net : transport) (req : request) (content : json) : Prop :=
  exists (resp : response) (body choices first message : json),
    net req = Ok resp
    /\ ~ (400 <= status_code resp < 600)
    /\ response_json resp = Ok body
    /\ getitem_key body "choices" = Ok choices
    /\ getitem_0 choices = Ok first
    /\ getitem_key first "message" = Ok message
    /\ getitem_key message "content" = Ok content.

(** What a handler does once its button is clicked: it only warns, or it
    shows a spinner, makes the call and, when the result is true, shows
    display events. *)
Definition handler_shape (st : session_state) (net : transport) (m : io unit) : Prop :=
  (exists w : string, m = ([st_warning w], Ok tt))
  \/ (exists (text prompt system_prompt : string) (tr shown : list event) (v : json),
        make_api_request st net prompt system_prompt = (tr, Ok v)
        /\ m = (st_spinner text :: tr ++ (if json_truthy v then shown else []), Ok tt)
        /\ forallb is_display shown = true).

(** * Properties *)

(** ** Text lemmas *)

Lemma append_cons (c : ascii) (s t : string) :
  String c s +:+ t = String c (s +:+ t).
Proof. reflexivity. Qed.

Lemma append_nil_r (s : string) : s +:+ EmptyString = s.
Proof.
  induction s as [|c s IH]; [reflexivity |].
  now rewrite append_cons, IH.
Qed.

Lemma append_assoc (a b c : string) : (a +:+ b) +:+ c = a +:+ (b +:+ c).
Proof.
  induction a as [|x a IH]; [reflexivity |].
  now rewrite !append_cons, IH.
Qed.

Lemma truthy_true (s : string) : truthy s = true <-> s <> EmptyString.
Proof. destruct s; simpl; split; intros; congruence. Qed.

Lemma truthy_false (s : string) : truthy s = false <-> s = EmptyString.
Proof. destruct s; simpl; split; intros; congruence. Qed.

Lemma startswith_spec (s p : string) :
  startswith s p = true <-> exists post, s = p +:+ post.
Proof.
  revert s. induction p as [|a p IH]; intros s; simpl.
  - split; [intros _; now exists s | reflexivity].
  - destruct s as [|b s]; simpl.
    + split; [discriminate | intros [post H]; discriminate].
    + rewrite andb_true_iff, IH, Ascii.eqb_eq. split.
      * intros [-> [post ->]]. now exists post.
      * intros [post H]. rewrite append_cons in H. injection H as -> ->.
        split; [reflexivity | now exists post].
Qed.

Lemma contains_spec (s p : string) : contains s p = true <-> occurs_in p s.
Proof.
  unfold occurs_in. induction s as [|c s IH].
  - simpl. rewrite orb_false_r, startswith_spec. split.
    + intros [post H]. now exists EmptyString, post.
    + intros [pre [post H]]. destruct pre; [now exists post | discriminate].
  - change (contains (String c s) p)
      with (startswith (String c s) p || contains s p).
    rewrite orb_true_iff, startswith_spec, IH. split.
    + intros [[post H] | [pre [post H]]].
      * now exists EmptyString, post.
      * exists (String c pre), post. now rewrite append_cons, H.
    + intros [pre [post H]]. destruct pre as [|x pre].
      * left. now exists post.
      * right. rewrite append_cons in H. injection H as _ H. now exists pre, post.
Qed.

Lemma contains_false (s p : string) : contains s p = false -> ~ occurs_in p s.
Proof. intros H Hocc. apply contains_spec in Hocc. congruence. Qed.

Lemma occurs_in_app_r (p a b : string) : occurs_in p b -> occurs_in p (a +:+ b).
Proof.
  intros [pre [post ->]]. exists (a +:+ pre), post.
  now rewrite !append_assoc.
Qed.

Lemma begins_nil (s : string) : begins EmptyString s.
Proof. now exists s. Qed.

Lemma begins_cons (c : ascii) (p s : string) :
  begins p s -> begins (String c p) (String c s).
Proof. intros [post ->]. now exists post. Qed.

Lemma begins_app (x p s : string) : begins p s -> begins (x +:+ p) (x +:+ s).
Proof. intros [post ->]. exists post. now rewrite append_assoc. Qed.

Lemma begins_same (p : string) : begins p p.
Proof. exists EmptyString. now rewrite append_nil_r. Qed.

Lemma begins_occurs (p s : string) : begins p s -> occurs_in p s.
Proof. intros [post ->]. now exists EmptyString, post. Qed.

Lemma occurs_in_cons (c : ascii) (p s : string) :
  occurs_in p s -> occurs_in p (String c s).
Proof. apply (occurs_in_app_r p (String c EmptyString) s). Qed.

(** Matching a pattern made of literal text and of the same interpolated
    values as the text, piece by piece. *)
Ltac match_beginning :=
  first [ apply begins_nil
        | apply begins_same
        | apply begins_cons; match_beginning
        | apply begins_app; match_beginning ].

(** Finding where the pattern starts: skip one character of a literal, or
    one interpolated value. *)
Ltac find_occurrence :=
  first [ apply begins_occurs; match_beginning
        | apply occurs_in_cons; find_occurrence
        | apply occurs_in_app_r; find_occurrence ].

(** ** Traces *)

Lemma posts_app (t1 t2 : list event) : posts (t1 ++ t2) = posts t1 ++ posts t2.
Proof.
  induction t1 as [|ev t1 IH]; simpl; [reflexivity |].
  destruct ev; simpl; now rewrite IH.
Qed.

Lemma trace_bind {A B : Type} (m : io A) (k : A -> io B) :
  trace (bind m k)
  = trace m ++ match result m with
               | Ok a => trace (k a)
               | Raise _ => []
               end.
Proof.
  destruct m as [tr [a|e]]; simpl.
  - destruct (k a) as [tr' r]. reflexivity.
  - now rewrite app_nil_r.
Qed.


(** Whatever the network does, [make_api_request] returns a value: either
    the key is empty and nothing is sent, or one request is sent and any
    exception ends in [st.error]. *)
Lemma make_api_request_cases (st : session_state) (net : transport)
    (prompt system_prompt : string) :
  (api_key st = EmptyString
   /\ make_api_request st net prompt system_prompt
      = ([st_error "Please enter your OpenRouter API key in the sidebar."], Ok JNull))
  \/ (api_key st <> EmptyString
      /\ exists (tail : list event) (v : json),
           make_api_request st net prompt system_prompt
           = (requests_post (sent_request st prompt system_prompt) :: tail, Ok v)
           /\ posts tail = []).
Proof.
  unfold make_api_request. destruct (truthy (api_key st)) eqn:Hkey; simpl.
  - right. split; [now apply truthy_true |].
    change (mk_request endpoint (request_headers st)
              (request_data prompt system_prompt) 60)
      with (sent_request st prompt system_prompt).
    unfold post, lift, emit, bind, try_except. simpl.
    destruct (net (sent_request st prompt system_prompt)) as [resp|e]; simpl.
    + unfold raise_for_status.
      destruct ((400 <=? status_code resp) && (status_code resp <? 500)); simpl;
        [eexists _, _; split; reflexivity |].
      destruct ((500 <=? status_code resp) && (status_code resp <? 600)); simpl;
        [eexists _, _; split; reflexivity |].
      destruct (response_json resp) as [body|e]; simpl;
        [| destruct (is_RequestException e); simpl; eexists _, _; split; reflexivity].
      destruct (getitem_key body "choices") as [choices|e]; simpl;
        [| destruct (is_RequestException e); simpl; eexists _, _; split; reflexivity].
      destruct (getitem_0 choices) as [first|e]; simpl;
        [| destruct (is_RequestException e); simpl; eexists _, _; split; reflexivity].
      destruct (getitem_key first "message") as [message|e]; simpl;
        [| destruct (is_RequestException e); simpl; eexists _, _; split; reflexivity].
      destruct (getitem_key message "content") as [content|e]; simpl;
        [| destruct (is_RequestException e); simpl; eexists _, _; split; reflexivity].
      eexists _, _; split; reflexivity.
    + destruct (is_RequestException e); simpl; eexists _, _; split; reflexivity.
  - left. split; [now apply truthy_false | reflexivity].
Qed.

(** Claim C2: with an empty stored API key, [make_api_request] shows the
    configuration error, returns [None] and sends no request, whatever the
    prompts and the network. *)
Theorem C2_missing_credential (st : session_state) (net : transport)
    (prompt system_prompt : string) :
  api_key st = EmptyString ->
  result (make_api_request st net prompt system_prompt) = Ok JNull
  /\ trace (make_api_request st net prompt system_prompt)
     = [st_error "Please enter your OpenRouter API key in the sidebar."]
  /\ posts (trace (make_api_request st net prompt system_prompt)) = [].
Proof.
  intros Hkey. unfold make_api_request. rewrite Hkey. simpl. auto.
Qed.

Lemma C2_missing_credential_witness :
  api_key (mk_session EmptyString) = EmptyString
  /\ posts (trace (make_api_request (mk_session EmptyString)
                     (fun _ => Raise (RequestException "unreachable"))
                     "Summarise clause 4." "You are a helpful legal AI assistant."))
     = [].
Proof.
  split; [reflexivity |].
  apply (C2_missing_credential (mk_session EmptyString)
           (fun _ => Raise (RequestException "unreachable"))
           "Summarise clause 4." "You are a helpful legal AI assistant.").
  reflexivity.
Defined.

(** Claim C3, as the code has it: a response with a status from 400 to 599
    (401, say) makes [make_api_request] show the error [API request failed:]
    followed by the text of the [HTTPError], which starts with the status
    code, and return [None]; nothing is raised. *)
Theorem C3_http_error_reported (st : session_state) (net : transport)
    (prompt system_prompt : string) (resp : response) :
  api_key st <> EmptyString ->
  net (sent_request st prompt system_prompt) = Ok resp ->
  400 <= status_code resp < 600 ->
  make_api_request st net prompt system_prompt
  = ([ requests_post (sent_request st prompt system_prompt);
       st_error ("API request failed: " +:+ pretty (status_code resp)
                 +:+ (if status_code resp <? 500
                      then " Client Error: " else " Server Error: ")
                 +:+ reason resp +:+ " for url: " +:+ response_url resp) ],
     Ok JNull).
Proof.
  intros Hkey Hnet [Hlo Hhi]. unfold make_api_request.
  apply truthy_true in Hkey. rewrite Hkey. simpl.
  change (mk_request endpoint (request_headers st)
            (request_data prompt system_prompt) 60)
    with (sent_request st prompt system_prompt).
  unfold post, lift, emit, bind, try_except. simpl. rewrite Hnet. simpl.
  unfold raise_for_status.
  destruct (status_code resp <? 500) eqn:H500.
  - replace (400 <=? status_code resp) with true by (symmetry; apply Z.leb_le; lia).
    reflexivity.
  - replace (400 <=? status_code resp) with true by (symmetry; apply Z.leb_le; lia).
    replace (500 <=? status_code resp) with true
      by (symmetry; apply Z.leb_le; apply Z.ltb_ge in H500; lia).
    replace (status_code resp <? 600) with true by (symmetry; apply Z.ltb_lt; lia).
    reflexivity.
Qed.

Lemma C3_http_error_reported_witness :
  make_api_request (mk_session "sk-test")
    (fun _ => Ok (mk_response 401 "Unauthorized" endpoint
                    (Ok (JObj [("error", JStr "No auth credentials found")]))))
    "Summarise clause 4." "You are a helpful legal AI assistant."
  = ([ requests_post (sent_request (mk_session "sk-test") "Summarise clause 4."
                        "You are a helpful legal AI assistant.");
       st_error "API request failed: 401 Client Error: Unauthorized for url: https://openrouter.ai/api/v1/chat/completions" ],
     Ok JNull).
Proof.
  apply (C3_http_error_reported (mk_session "sk-test")
           (fun _ => Ok (mk_response 401 "Unauthorized" endpoint
                           (Ok (JObj [("error", JStr "No auth credentials found")]))))
           "Summarise clause 4." "You are a helpful legal AI assistant."
           (mk_response 401 "Unauthorized" endpoint
              (Ok (JObj [("error", JStr "No auth credentials found")])))).
  - discriminate.
  - reflexivity.
  - simpl. lia.
Defined.

(** Against claim C3 as stated: a response outside the 2xx range that is
    not an error for [raise_for_status], status 300 with a well-formed body.
    The call succeeds with the content and shows no error. *)
Lemma C3_counterexample :
  let resp := mk_response 300 "Multiple Choices" endpoint (Ok (envelope "See you in court.")) in
  let call := make_api_request (mk_session "sk-test") (fun _ => Ok resp)
                "Summarise clause 4." "You are a helpful legal AI assistant." in
  ~ (200 <= status_code resp < 300)
  /\ result call = Ok (JStr "See you in court.")
  /\ trace call = [ requests_post (sent_request (mk_session "sk-test")
                                     "Summarise clause 4."
                                     "You are a helpful legal AI assistant.") ].
Proof.
  simpl. split; [lia |]. split; reflexivity.
Qed.

(** ** Every request has one shape *)

Create HintDb sends.

Section Requests.

Variable st : session_state.

Lemma sends_only_quiet {A : Type} (m : io A) :
  posts (trace m) = [] -> sends_only st m.
Proof. intros H req Hin. rewrite H in Hin. destruct Hin. Qed.

Lemma sends_only_ret {A : Type} (a : A) : sends_only st (ret a).
Proof. now apply sends_only_quiet. Qed.

Lemma sends_only_bind {A B : Type} (m : io A) (k : A -> io B) :
  sends_only st m -> (forall a, sends_only st (k a)) -> sends_only st (bind m k).
Proof.
  intros Hm Hk req. rewrite trace_bind, posts_app, in_app_iff.
  intros [Hin | Hin]; [now apply Hm |].
  destruct (result m) as [a|e]; [now apply (Hk a) | destruct Hin].
Qed.

Lemma sends_only_make_api_request (net : transport) (prompt system_prompt : string) :
  sends_only st (make_api_request st net prompt system_prompt).
Proof.
  destruct (make_api_request_cases st net prompt system_prompt)
    as [[_ ->] | [_ [tail [v [-> Htail]]]]].
  - now apply sends_only_quiet.
  - intros req. simpl. rewrite Htail. intros [<- | []]. now exists prompt, system_prompt.
Qed.

Lemma sends_only_load (ns : namespace) (x : string) : sends_only st (load ns x).
Proof. unfold load. destruct (ns !! x); now apply sends_only_quiet. Qed.

Lemma sends_only_load_or (ns : namespace) (x d : string) : sends_only st (load_or ns x d).
Proof.
  unfold load_or. apply sends_only_bind; [apply sends_only_load |].
  intros v. destruct (truthy v); [apply sends_only_load | apply sends_only_ret].
Qed.

Lemma sends_only_load_if_bound (ns : namespace) (x d : string) :
  sends_only st (load_if_bound ns x d).
Proof.
  unfold load_if_bound.
  destruct (in_locals ns x); [apply sends_only_load | apply sends_only_ret].
Qed.

Lemma sends_only_show_result (heading : string) (v : json) :
  sends_only st (show_result heading v).
Proof. now apply sends_only_quiet. Qed.

Lemma sends_only_read_contract (uploaded_file : option upload) (text_area : string) :
  sends_only st (read_contract uploaded_file text_area).
Proof.
  apply sends_only_quiet. unfold read_contract.
  destruct uploaded_file as [f|]; [|reflexivity].
  destruct (String.eqb _ "pdf").
  - destruct (PdfReader f) as [pages|e]; [|reflexivity]. simpl.
    destruct (page_texts pages); reflexivity.
  - destruct (String.eqb _ "docx"); [|reflexivity].
    destruct (Document f); reflexivity.
Qed.

#[local] Hint Resolve sends_only_ret sends_only_make_api_request sends_only_load
  sends_only_load_or sends_only_load_if_bound sends_only_show_result
  sends_only_read_contract : sends.

Ltac sends_step :=
  first [ solve [ auto with sends ]
        | apply sends_only_quiet; reflexivity
        | match goal with
          | |- sends_only _ (if ?c then _ else _) => destruct c
          end
        | apply sends_only_bind; [| intros ? ] ].

Lemma sends_only_run (net : transport) (strftime : string -> string)
    (f : form) (clicked : bool) :
  sends_only st (run st net strftime f clicked).
Proof.
  destruct f; simpl.
  - unfold analyze_contract. repeat sends_step.
  - unfold generate_document, drafting_system_prompt, drafting_full_prompt.
    repeat sends_step.
  - unfold research_cases. repeat sends_step.
  - unfold generate_memorandum. repeat sends_step.
  - unfold check_compliance. repeat sends_step.
Qed.

End Requests.

(** Claim C8: every request that a run of the script sends goes to the
    chat-completion endpoint with the header [Authorization: Bearer <key>],
    a JSON body with the fixed model name, exactly two messages (system,
    then user), [max_tokens] 2000 and [temperature] 0.3, and a timeout of
    60 seconds. *)
Theorem C8_request_shape (st : session_state) (net : transport)
    (strftime : string -> string) (f : form) (clicked : bool) (req : request) :
  In req (posts (trace (run st net strftime f clicked))) ->
  exists prompt system_prompt : string,
    req = {| url := "https://openrouter.ai/api/v1/chat/completions";
             headers := [ ("Authorization", "Bearer " +:+ api_key st);
                          ("Content-Type", "application/json") ];
             json_arg :=
               JObj [ ("model", JStr "openai/gpt-4o-mini");
                      ("messages",
                       JArr [ JObj [("role", JStr "system");
                                    ("content", JStr system_prompt)];
                              JObj [("role", JStr "user");
                                    ("content", JStr prompt)] ]);
                      ("max_tokens", JInt 2000);
                      ("temperature", JReal (3 # 10)) ];
             timeout := 60 |}.
Proof. apply sends_only_run. Qed.

Lemma C8_request_shape_witness :
  exists prompt system_prompt : string,
    sent_request (mk_session "sk-test")
      (research_query "Unfair dismissal" "" ["Federal"] "Employment" "Last 10 years")
      (research_system_prompt ["Federal"] "Employment" "Last 10 years")
    = {| url := "https://openrouter.ai/api/v1/chat/completions";
         headers := [ ("Authorization", "Bearer " +:+ api_key (mk_session "sk-test"));
                      ("Content-Type", "application/json") ];
         json_arg :=
           JObj [ ("model", JStr "openai/gpt-4o-mini");
                  ("messages",
                   JArr [ JObj [("role", JStr "system");
                                ("content", JStr system_prompt)];
                          JObj [("role", JStr "user");
                                ("content", JStr prompt)] ]);
                  ("max_tokens", JInt 2000);
                  ("temperature", JReal (3 # 10)) ];
         timeout := 60 |}.
Proof.
  apply (C8_request_shape (mk_session "sk-test")
           (fun _ => Raise (RequestException "Connection refused"))
           (fun _ => "20240131")
           (CaseLawResearch "Unfair dismissal" "" ["Federal"] "Employment" "Last 10 years")
           true).
  vm_compute. left. reflexivity.
Defined.

(** ** What a handler sends *)

Lemma posts_make_api_request (st : session_state) (net : transport)
    (prompt system_prompt : string) :
  api_key st <> EmptyString ->
  posts (trace (make_api_request st net prompt system_prompt))
  = [sent_request st prompt system_prompt].
Proof.
  intros Hkey.
  destruct (make_api_request_cases st net prompt system_prompt)
    as [[Hempty _] | [_ [tail [v [-> Htail]]]]]; [contradiction |].
  simpl. now rewrite Htail.
Qed.

(** A spinner, the call, then a continuation that sends nothing. *)
Lemma posts_spinner_call {B : Type} (st : session_state) (net : transport)
    (text prompt system_prompt : string) (k : json -> io B) :
  (forall v, posts (trace (k v)) = []) ->
  posts (trace (emit (st_spinner text) ;;;
                result <- make_api_request st net prompt system_prompt ;;
                k result))
  = posts (trace (make_api_request st net prompt system_prompt)).
Proof.
  intros Hk. rewrite trace_bind. simpl. rewrite trace_bind, posts_app.
  destruct (result _) as [v|e]; [rewrite Hk |]; now rewrite app_nil_r.
Qed.

Lemma analyze_contract_posts (st : session_state) (net : transport)
    (contract_text analysis_type : string) (focus_areas : list string)
    (contract_type : string) :
  truthy contract_text && truthy (strip contract_text) = true ->
  api_key st <> EmptyString ->
  posts (trace (analyze_contract st net contract_text analysis_type focus_areas
                  contract_type))
  = [sent_request st contract_text
       (contract_system_prompt analysis_type focus_areas contract_type)].
Proof.
  intros Hok Hkey. unfold analyze_contract. rewrite Hok.
  rewrite posts_spinner_call; [now apply posts_make_api_request |].
  intros v. destruct (json_truthy v); reflexivity.
Qed.

(** Claim C1, as the code has it: in the scenario (Risk Assessment, no
    focus areas, NDA, the pasted text [Sample clause text.]) and with a key
    configured, the script sends one request; its user message is the
    pasted text unchanged, and its system message contains the analysis
    type in lower case, [risk assessment], and the phrase
    [all standard contract provisions]. *)
Theorem C1_contract_scenario (st : session_state) (net : transport)
    (strftime : string -> string) :
  api_key st <> EmptyString ->
  let system_prompt := contract_system_prompt "Risk Assessment" [] "NDA" in
  posts (trace (run st net strftime
                  (ContractAnalysis None "Sample clause text." "Risk Assessment" [] "NDA")
                  true))
  = [sent_request st "Sample clause text." system_prompt]
  /\ occurs_in "risk assessment" system_prompt
  /\ occurs_in "all standard contract provisions" system_prompt.
Proof.
  intros Hkey system_prompt. split; [| split].
  - change (run st net strftime
              (ContractAnalysis None "Sample clause text." "Risk Assessment" [] "NDA") true)
      with (bind (ret "Sample clause text.")
              (fun contract_text =>
                 analyze_contract st net contract_text "Risk Assessment" [] "NDA")).
    rewrite trace_bind. simpl. now apply analyze_contract_posts.
  - apply contains_spec. vm_compute. reflexivity.
  - apply contains_spec. vm_compute. reflexivity.
Qed.

Lemma C1_contract_scenario_witness :
  posts (trace (run (mk_session "sk-test") (fun _ => Ok (mk_response 200 "OK" endpoint
                                                           (Ok (envelope "Low risk."))))
                  (fun _ => "20240131")
                  (ContractAnalysis None "Sample clause text." "Risk Assessment" [] "NDA")
                  true))
  = [sent_request (mk_session "sk-test") "Sample clause text."
       (contract_system_prompt "Risk Assessment" [] "NDA")].
Proof.
  apply (C1_contract_scenario (mk_session "sk-test")
           (fun _ => Ok (mk_response 200 "OK" endpoint (Ok (envelope "Low risk."))))
           (fun _ => "20240131")).
  discriminate.
Defined.

(** Against claim C1 as stated: the system prompt of the scenario does not
    contain the analysis type with its capitals; [analysis_type.lower()] is
    what the template interpolates. *)
Lemma C1_counterexample :
  ~ occurs_in "Risk Assessment" (contract_system_prompt "Risk Assessment" [] "NDA").
Proof. apply contains_false. vm_compute. reflexivity. Qed.

Lemma memo_validation (memo_subject facts legal_question : string) :
  forallb truthy [memo_subject; facts; legal_question] = true
  <-> memo_subject <> EmptyString /\ facts <> EmptyString
      /\ legal_question <> EmptyString.
Proof.
  simpl. rewrite !andb_true_iff, !truthy_true. tauto.
Qed.

Lemma generate_memorandum_posts (st : session_state) (net : transport)
    (strftime : string -> string)
    (memo_to memo_from memo_subject facts legal_question memo_type priority
       analysis_depth : string) (include_recommendations : bool) :
  forallb truthy [memo_subject; facts; legal_question] = true ->
  api_key st <> EmptyString ->
  posts (trace (generate_memorandum st net strftime memo_to memo_from memo_subject
                  facts legal_question memo_type priority analysis_depth
                  include_recommendations))
  = [sent_request st
       (memo_content memo_to memo_from memo_subject memo_type facts legal_question)
       (memo_system_prompt memo_type analysis_depth priority include_recommendations)].
Proof.
  intros Hok Hkey. unfold generate_memorandum. rewrite Hok.
  rewrite posts_spinner_call; [now apply posts_make_api_request |].
  intros v. destruct (json_truthy v); reflexivity.
Qed.

Lemma generate_memorandum_accepted (st : session_state) (net : transport)
    (strftime : string -> string)
    (memo_to memo_from memo_subject facts legal_question memo_type priority
       analysis_depth : string) (include_recommendations : bool) :
  forallb truthy [memo_subject; facts; legal_question] = true ->
  exists tail : list event,
    trace (generate_memorandum st net strftime memo_to memo_from memo_subject
             facts legal_question memo_type priority analysis_depth
             include_recommendations)
    = st_spinner "Generating memorandum..." :: tail.
Proof.
  intros Hok. unfold generate_memorandum. rewrite Hok.
  rewrite trace_bind. simpl. eexists. reflexivity.
Qed.

(** Claim C4: submitting the memorandum form with an empty Subject only
    shows the validation warning; [make_api_request] is not reached, so no
    request is sent, whatever the other fields, the key and the network. *)
Theorem C4_memo_empty_subject_rejected (st : session_state) (net : transport)
    (strftime : string -> string)
    (memo_to memo_from facts legal_question memo_type priority
       analysis_depth : string) (include_recommendations : bool) :
  run st net strftime
    (MemorandumGenerator memo_to memo_from EmptyString facts legal_question
       memo_type priority analysis_depth include_recommendations) true
  = ([st_warning "Please fill in all required fields (Subject, Facts, and Legal Questions)."],
     Ok tt)
  /\ posts (trace (run st net strftime
                     (MemorandumGenerator memo_to memo_from EmptyString facts
                        legal_question memo_type priority analysis_depth
                        include_recommendations) true))
     = [].
Proof. split; reflexivity. Qed.

(** Claim C9: the memorandum form is rejected exactly when Subject, Facts or
    Legal Question is the empty string; any other text, text made of white
    space included, passes, and with a key configured the request is sent
    with those fields as they are. *)
Theorem C9_memo_validation_is_truthiness (st : session_state) (net : transport)
    (strftime : string -> string)
    (memo_to memo_from memo_subject facts legal_question memo_type priority
       analysis_depth : string) (include_recommendations : bool) :
  let submitted :=
    run st net strftime
      (MemorandumGenerator memo_to memo_from memo_subject facts legal_question
         memo_type priority analysis_depth include_recommendations) true in
  (submitted = ([memo_warning], Ok tt)
   <-> memo_subject = EmptyString \/ facts = EmptyString
       \/ legal_question = EmptyString)
  /\ (memo_subject <> EmptyString -> facts <> EmptyString ->
      legal_question <> EmptyString -> api_key st <> EmptyString ->
      posts (trace submitted)
      = [sent_request st
           (memo_content memo_to memo_from memo_subject memo_type facts legal_question)
           (memo_system_prompt memo_type analysis_depth priority
              include_recommendations)]).
Proof.
  intros submitted.
  change submitted
    with (generate_memorandum st net strftime memo_to memo_from memo_subject facts
            legal_question memo_type priority analysis_depth include_recommendations).
  clear submitted. split.
  - destruct (forallb truthy [memo_subject; facts; legal_question]) eqn:Hv.
    + destruct (generate_memorandum_accepted st net strftime memo_to memo_from
                  memo_subject facts legal_question memo_type priority
                  analysis_depth include_recommendations Hv) as [tail Htail].
      apply memo_validation in Hv. split; [| tauto].
      intros Heq. apply (f_equal trace) in Heq. rewrite Htail in Heq.
      discriminate.
    + split.
      * intros _.
        destruct memo_subject; [now left |].
        destruct facts; [right; now left |].
        destruct legal_question; [right; now right | discriminate].
      * intros _. unfold generate_memorandum. now rewrite Hv.
  - intros Hs Hf Hq Hkey.
    apply generate_memorandum_posts; [| assumption].
    now apply memo_validation.
Qed.

Lemma C9_memo_validation_is_truthiness_witness :
  strip " " = EmptyString
  /\ strip nl = EmptyString
  /\ strip "   " = EmptyString
  /\ posts (trace (run (mk_session "sk-test")
                     (fun _ => Raise (RequestException "Connection refused"))
                     (fun _ => "20240131_0930")
                     (MemorandumGenerator "" "" " " nl "   " "Case Analysis" "Standard"
                        "Brief Summary" true)
                     true))
     = [sent_request (mk_session "sk-test")
          (memo_content "" "" " " "Case Analysis" nl "   ")
          (memo_system_prompt "Case Analysis" "Brief Summary" "Standard" true)].
Proof.
  repeat (split; [reflexivity |]).
  apply (C9_memo_validation_is_truthiness (mk_session "sk-test")
           (fun _ => Raise (RequestException "Connection refused"))
           (fun _ => "20240131_0930")
           "" "" " " nl "   " "Case Analysis" "Standard" "Brief Summary" true);
    discriminate.
Defined.

(** ** Reading an uploaded PDF *)

Lemma count_char_app (c : ascii) (a b : string) :
  count_char c (a +:+ b) = (count_char c a + count_char c b)%nat.
Proof.
  induction a as [|x a IH]; [reflexivity |].
  rewrite append_cons. simpl. rewrite IH. lia.
Qed.

(** A join of [n] texts has the separators of [n - 1] boundaries on top of
    what the texts hold themselves. *)
Lemma count_char_join (texts : list string) :
  count_char newline (join nl texts)
  = (length texts - 1 + list_sum (map (count_char newline) texts))%nat.
Proof.
  induction texts as [|t rest IH]; [reflexivity |].
  destruct rest as [|t' rest].
  - simpl. lia.
  - change (join nl (t :: t' :: rest)) with (t +:+ nl +:+ join nl (t' :: rest)).
    rewrite !count_char_app, IH.
    change (count_char newline nl) with 1%nat. simpl. lia.
Qed.

Lemma page_texts_all_ok (texts : list (option string)) :
  page_texts (map Ok texts) = Ok (map or_empty texts).
Proof.
  induction texts as [|t rest IH]; [reflexivity |].
  simpl. now rewrite IH.
Qed.

Lemma read_contract_returns (uploaded_file : option upload) (text_area : string) :
  exists (tr : list event) (text : string),
    read_contract uploaded_file text_area = (tr, Ok text).
Proof.
  unfold read_contract. destruct uploaded_file as [f|]; [| now eexists _, _].
  destruct (String.eqb _ "pdf").
  - destruct (PdfReader f) as [pages|e]; [| now eexists _, _]. simpl.
    destruct (page_texts pages); now eexists _, _.
  - destruct (String.eqb _ "docx"); [| now eexists _, _].
    destruct (Document f); now eexists _, _.
Qed.

(** Claim C7: for an upload whose extension is [pdf], (1) when the reader
    gives [N] pages and every [extract_text()] returns, the contract text is
    the page texts joined by line feeds, a page without text counting as the
    empty string, so that the line feeds in it are those of the [N - 1] page
    boundaries plus those inside the pages; (2) when the reader raises, the
    error is shown with [st.error] and the text stays empty; (3) in every
    case the extraction returns and raises nothing. *)
Theorem C7_pdf_extraction (f : upload) (text_area : string) :
  lower (last_field "." (name f)) = "pdf" ->
  (forall texts : list (option string),
     PdfReader f = Ok (map Ok texts) ->
     read_contract (Some f) text_area = ([], Ok (join nl (map or_empty texts)))
     /\ count_char newline (join nl (map or_empty texts))
        = (length texts - 1
           + list_sum (map (fun t => count_char newline (or_empty t)) texts))%nat)
  /\ or_empty None = EmptyString
  /\ or_empty (Some EmptyString) = EmptyString
  /\ (forall e : exn,
        PdfReader f = Raise e ->
        read_contract (Some f) text_area
        = ([st_error ("Could not read PDF: " +:+ str_exn e)], Ok EmptyString))
  /\ (exists (tr : list event) (text : string),
        read_contract (Some f) text_area = (tr, Ok text)).
Proof.
  intros Hpdf. split; [| split; [| split; [| split]]].
  - intros texts Hpages. split.
    + unfold read_contract. rewrite Hpdf, Hpages. simpl.
      now rewrite page_texts_all_ok.
    + rewrite count_char_join, length_map, map_map. reflexivity.
  - reflexivity.
  - reflexivity.
  - intros e He. unfold read_contract. rewrite Hpdf, He. reflexivity.
  - apply read_contract_returns.
Qed.

Lemma C7_pdf_extraction_witness :
  let f := mk_upload "Lease.Agreement.PDF"
             (Ok [Ok (Some "Page one"); Ok None; Ok (Some "Page three")])
             (Raise (OtherException "File is not a zip file")) in
  read_contract (Some f) "" = ([], Ok ("Page one" +:+ nl +:+ nl +:+ "Page three"))
  /\ count_char newline ("Page one" +:+ nl +:+ nl +:+ "Page three") = 2%nat.
Proof.
  intros f.
  destruct (C7_pdf_extraction f "" eq_refl) as [Hpages _].
  destruct (Hpages [Some "Page one"; None; Some "Page three"] eq_refl)
    as [Hread Hcount].
  split; [exact Hread | exact Hcount].
Defined.

(** ** The drafting namespace *)

Lemma drafting_namespace_lookup (document_type document_details duration
    compensation jurisdiction parties : string) :
  let ns := drafting_namespace document_type document_details duration
              compensation jurisdiction parties in
  ns !! "document_type" = Some document_type
  /\ ns !! "document_details" = Some document_details
  /\ ns !! "jurisdiction" = Some jurisdiction
  /\ ns !! "parties" = Some parties
  /\ ns !! "duration" = (if extra_fields document_type then Some duration else None)
  /\ ns !! "compensation"
     = (if extra_fields document_type then Some compensation else None).
Proof.
  unfold drafting_namespace, extra_fields.
  destruct (bool_decide (document_type ∈ ["Employment Contract"; "Service Agreement"]));
    repeat split; by simplify_map_eq.
Qed.

Lemma load_bound (ns : namespace) (x v : string) :
  ns !! x = Some v -> load ns x = ([], Ok v).
Proof. intros H. unfold load. now rewrite H. Qed.

Lemma load_unbound (ns : namespace) (x : string) :
  ns !! x = None -> load ns x = ([], Raise (NameError x)).
Proof. intros H. unfold load. now rewrite H. Qed.

Lemma load_or_bound (ns : namespace) (x d v : string) :
  ns !! x = Some v ->
  load_or ns x d = ([], Ok (if truthy v then v else d)).
Proof.
  intros H. unfold load_or, load. rewrite H. simpl.
  destruct (truthy v); reflexivity.
Qed.

(** The guarded read never raises: it reads the name only when bound. *)
Lemma load_if_bound_total (ns : namespace) (x d : string) :
  load_if_bound ns x d = ([], Ok (default d (ns !! x))).
Proof.
  unfold load_if_bound, in_locals, load.
  destruct (ns !! x) as [v|]; reflexivity.
Qed.






Lemma drafting_system_prompt_value (document_type document_details duration
    compensation jurisdiction parties : string) :
  exists text : string,
    drafting_system_prompt
      (drafting_namespace document_type document_details duration compensation
         jurisdiction parties)
    = ([], Ok text)
    /\ occurs_in ("considering the jurisdiction: "
                  +:+ (if truthy jurisdiction then jurisdiction else "general")
                  +:+ "." +:+ nl) text.
Proof.
  destruct (drafting_namespace_lookup document_type document_details duration
              compensation jurisdiction parties) as (Hty & _ & Hju & _).
  unfold drafting_system_prompt.
  rewrite (load_bound _ _ _ Hty), (load_or_bound _ _ "general" _ Hju). simpl.
  eexists. split; [reflexivity |]. find_occurrence.
Qed.

Lemma drafting_full_prompt_value (document_type document_details duration
    compensation jurisdiction parties : string) :
  drafting_full_prompt
    (drafting_namespace document_type document_details duration compensation
       jurisdiction parties)
  = ([], Ok (drafting_full_prompt_text document_type document_details duration
               compensation jurisdiction parties)).
Proof.
  destruct (drafting_namespace_lookup document_type document_details duration
              compensation jurisdiction parties)
    as (Hty & Hde & Hju & Hpa & Hdu & Hco).
  unfold drafting_full_prompt, drafting_full_prompt_text.
  rewrite (load_bound _ _ _ Hty), (load_bound _ _ _ Hde),
    (load_or_bound _ _ "Not specified" _ Hpa),
    (load_or_bound _ _ "Not specified" _ Hju), !load_if_bound_total, Hdu, Hco.
  destruct (extra_fields document_type); reflexivity.
Qed.



(** Without the guard the read does raise: for a Privacy Policy the name
    [duration] is not bound. *)
Example unguarded_duration_raises :
  load (drafting_namespace "Privacy Policy" "Cookies and analytics." "" "" "" "")
    "duration"
  = ([], Raise (NameError "duration")).
Proof. apply load_unbound. vm_compute. reflexivity. Qed.

(** ** Optional fields and multi-selects in the prompts *)

(** Against claim C5 as stated: a memorandum with the To field left empty.
    The line of that field ends right after its label, and no placeholder
    stands in for it. *)
Lemma C5_counterexample :
  let text := memo_content "" "Associate Attorney" "Lease dispute" "Case Analysis"
                "The tenant withheld rent." "Is eviction lawful?" in
  text = "MEMORANDUM DETAILS:" +:+ nl +:+
         "            To: " +:+ nl +:+
         "            From: Associate Attorney" +:+ nl +:+
         "            Subject: Lease dispute" +:+ nl +:+
         "            Type: Case Analysis" +:+ nl +:+
         "            " +:+ nl +:+
         "            Facts: The tenant withheld rent." +:+ nl +:+
         "            Legal Questions: Is eviction lawful?"
  /\ occurs_in ("To: " +:+ nl) text
  /\ ~ occurs_in "not specified" (lower text).
Proof.
  simpl. split; [reflexivity |]. split.
  - apply contains_spec. vm_compute. reflexivity.
  - apply contains_false. vm_compute. reflexivity.
Qed.

(** Claim C5, as the code has it: an empty Parties or Jurisdiction of the
    drafting form renders as [Not specified] in the user prompt (an empty
    Jurisdiction as [general] in the system prompt), Duration and
    Compensation render as [N/A] when the document type does not bind them,
    an empty Context of the research form renders as [Not provided], and
    empty Specific Concerns of the compliance form render as
    [General compliance review]; the To and From fields of the memorandum
    have no placeholder and are interpolated as they are. *)
Theorem C5_optional_placeholders :
  (forall document_type document_details duration compensation jurisdiction : string,
     exists text : string,
       drafting_full_prompt
         (drafting_namespace document_type document_details duration compensation
            jurisdiction EmptyString)
       = ([], Ok text)
       /\ occurs_in ("Parties: Not specified" +:+ nl) text)
  /\ (forall document_type document_details duration compensation parties : string,
        exists user_text system_text : string,
          drafting_full_prompt
            (drafting_namespace document_type document_details duration compensation
               EmptyString parties)
          = ([], Ok user_text)
          /\ drafting_system_prompt
               (drafting_namespace document_type document_details duration
                  compensation EmptyString parties)
             = ([], Ok system_text)
          /\ occurs_in ("Jurisdiction: Not specified" +:+ nl) user_text
          /\ occurs_in ("considering the jurisdiction: general." +:+ nl) system_text)
  /\ (forall document_type document_details duration compensation jurisdiction
        parties : string,
        document_type ∉ ["Employment Contract"; "Service Agreement"] ->
        exists text : string,
          drafting_full_prompt
            (drafting_namespace document_type document_details duration compensation
               jurisdiction parties)
          = ([], Ok text)
          /\ occurs_in "Additional Info: Duration: N/A, Compensation: N/A" text)
  /\ (forall (legal_issue : string) (jurisdiction_filter : list string)
        (case_type time_period : string),
        occurs_in ("Context: Not provided" +:+ nl)
          (research_query legal_issue EmptyString jurisdiction_filter case_type
             time_period))
  /\ (forall (industry business_description business_size : string)
        (geographic_scope compliance_areas : list string),
        occurs_in ("Specific Concerns: General compliance review" +:+ nl)
          (compliance_query industry business_description EmptyString business_size
             geographic_scope compliance_areas))
  /\ (forall memo_to memo_from memo_subject memo_type facts legal_question : string,
        occurs_in ("To: " +:+ memo_to +:+ nl +:+
                   "            From: " +:+ memo_from +:+ nl)
          (memo_content memo_to memo_from memo_subject memo_type facts
             legal_question)).
Proof.
  split; [| split; [| split; [| split; [| split]]]].
  - intros. eexists. split; [apply drafting_full_prompt_value |].
    unfold drafting_full_prompt_text. simpl truthy. cbv iota. find_occurrence.
  - intros.
    destruct (drafting_system_prompt_value document_type document_details duration
                compensation EmptyString parties) as [system_text [Hsys Hocc]].
    eexists _, system_text. split; [apply drafting_full_prompt_value |].
    split; [exact Hsys |]. split; [| exact Hocc].
    unfold drafting_full_prompt_text. simpl truthy. cbv iota. find_occurrence.
  - intros * Hnot. eexists. split; [apply drafting_full_prompt_value |].
    unfold drafting_full_prompt_text, extra_fields.
    rewrite bool_decide_eq_false_2 by exact Hnot.
    apply occurs_in_app_r, occurs_in_app_r, occurs_in_app_r, occurs_in_app_r.
    find_occurrence.
  - intros. unfold research_query. simpl truthy. cbv iota. find_occurrence.
  - intros. unfold compliance_query. simpl truthy. cbv iota. find_occurrence.
  - intros. unfold memo_content. find_occurrence.
Qed.

Lemma C5_optional_placeholders_witness :
  exists text : string,
    drafting_full_prompt
      (drafting_namespace "Privacy Policy" "Cookies and analytics." "" "" "" "")
    = ([], Ok text)
    /\ occurs_in "Additional Info: Duration: N/A, Compensation: N/A" text.
Proof.
  destruct C5_optional_placeholders as (_ & _ & Hna & _).
  apply (Hna "Privacy Policy" "Cookies and analytics." "" "" "" "").
  vm_compute. intros Hin. inversion Hin as [| ? ? ? Hin']; subst.
  inversion Hin' as [| ? ? ? Hin'']; subst. inversion Hin''.
Defined.

(** Against claim C6 as stated: the research form with no jurisdiction
    selected.  The user prompt shows the selection as the empty list. *)
Lemma C6_counterexample :
  let query := research_query "Unfair dismissal" "" [] "Employment" "Last 10 years" in
  query = "Legal Issue: Unfair dismissal" +:+ nl +:+
          "            Context: Not provided" +:+ nl +:+
          "            Research Parameters: Jurisdiction: [], Type: Employment, Period: Last 10 years"
  /\ occurs_in "Jurisdiction: []" query.
Proof.
  simpl. split; [reflexivity |]. apply contains_spec. vm_compute. reflexivity.
Qed.

(** In the user prompts a selection is shown as Python shows a list. *)
Lemma user_prompts_show_lists (legal_issue case_context case_type time_period
    industry business_description specific_concerns business_size : string)
    (jurisdiction_filter geographic_scope compliance_areas : list string) :
  occurs_in ("Jurisdiction: " +:+ repr_list jurisdiction_filter +:+ ", Type: ")
    (research_query legal_issue case_context jurisdiction_filter case_type time_period)
  /\ occurs_in ("Geographic: " +:+ repr_list geographic_scope +:+ ", Focus: "
                +:+ repr_list compliance_areas)
       (compliance_query industry business_description specific_concerns
          business_size geographic_scope compliance_areas).
Proof.
  split.
  - unfold research_query. find_occurrence.
  - unfold compliance_query. find_occurrence.
Qed.

(** Claim C6, as the code has it: in the system prompts every multi-select
    is written as its selected options joined by a comma and a space when
    something is selected, and as a named default when nothing is: [all
    standard contract provisions] for the focus areas of a contract, [all
    jurisdictions] for the research jurisdictions, [Not specified] for the
    geographic scope and [General compliance] for the compliance areas. *)
Theorem C6_multiselect_in_system_prompts :
  (forall (analysis_type contract_type option : string) (others : list string),
     occurs_in ("Pay special attention to: " +:+ join ", " (option :: others) +:+ ".")
       (contract_system_prompt analysis_type (option :: others) contract_type))
  /\ (forall analysis_type contract_type : string,
        occurs_in "Pay special attention to: all standard contract provisions."
          (contract_system_prompt analysis_type [] contract_type))
  /\ (forall (case_type time_period option : string) (others : list string),
        occurs_in ("Focus on: " +:+ join ", " (option :: others) +:+ nl)
          (research_system_prompt (option :: others) case_type time_period))
  /\ (forall case_type time_period : string,
        occurs_in ("Focus on: all jurisdictions" +:+ nl)
          (research_system_prompt [] case_type time_period))
  /\ (forall (industry business_size option : string)
        (others compliance_areas : list string),
        occurs_in ("- Geographic scope: " +:+ join ", " (option :: others) +:+ nl)
          (compliance_system_prompt industry business_size (option :: others)
             compliance_areas))
  /\ (forall (industry business_size : string) (compliance_areas : list string),
        occurs_in ("- Geographic scope: Not specified" +:+ nl)
          (compliance_system_prompt industry business_size [] compliance_areas))
  /\ (forall (industry business_size option : string)
        (others geographic_scope : list string),
        occurs_in ("- Focus areas: " +:+ join ", " (option :: others) +:+ nl)
          (compliance_system_prompt industry business_size geographic_scope
             (option :: others)))
  /\ (forall (industry business_size : string) (geographic_scope : list string),
        occurs_in ("- Focus areas: General compliance" +:+ nl)
          (compliance_system_prompt industry business_size geographic_scope [])).
Proof.
  repeat split; intros.
  - unfold contract_system_prompt. simpl nonempty. cbv iota. find_occurrence.
  - unfold contract_system_prompt. simpl nonempty. cbv iota. find_occurrence.
  - unfold research_system_prompt. simpl nonempty. cbv iota. find_occurrence.
  - unfold research_system_prompt. simpl nonempty. cbv iota. find_occurrence.
  - unfold compliance_system_prompt. simpl nonempty. cbv iota. find_occurrence.
  - unfold compliance_system_prompt. simpl nonempty. cbv iota. find_occurrence.
  - unfold compliance_system_prompt. simpl nonempty. cbv iota. find_occurrence.
  - unfold compliance_system_prompt. simpl nonempty. cbv iota. find_occurrence.
Qed.

(** * Further properties of the script *)

(** ** Blank text *)

Lemma lstrip_all_space (s : string) : all_space s = true -> lstrip s = EmptyString.
Proof.
  induction s as [|c s IH]; [reflexivity |].
  simpl. intros H. apply andb_true_iff in H. destruct H as [Hc Hs].
  rewrite Hc. now apply IH.
Qed.

(** What [lstrip] leaves is empty or starts with a character that is not
    white space. *)
Lemma lstrip_head (s : string) :
  (lstrip s = EmptyString /\ all_space s = true)
  \/ (exists c rest, lstrip s = String c rest /\ isspace c = false
                     /\ all_space s = false).
Proof.
  induction s as [|c s IH]; [now left |].
  simpl. destruct (isspace c) eqn:Hc; simpl.
  - destruct IH as [[H1 H2] | (c' & rest & H1 & H2 & H3)].
    + now left.
    + right. now exists c', rest.
  - right. now exists c, s.
Qed.

Lemma strip_blank (s : string) : truthy (strip s) = negb (all_space s).
Proof.
  unfold strip.
  destruct (lstrip_head s) as [[H1 H2] | (c & rest & H1 & H2 & H3)].
  - now rewrite H1, H2.
  - rewrite H1, H3. simpl. now rewrite H2.
Qed.

Lemma strip_empty_iff (s : string) :
  strip s = EmptyString <-> all_space s = true.
Proof.
  rewrite <- truthy_false, strip_blank. now destruct (all_space s).
Qed.

(** The test of the contract form, [contract_text and contract_text.strip()]. *)
Lemma contract_text_test (s : string) :
  truthy s && truthy (strip s) = negb (all_space s).
Proof.
  rewrite strip_blank. destruct s; [reflexivity |].
  simpl. reflexivity.
Qed.

(** ** Binding a value *)

Lemma bind_ret {A B : Type} (a : A) (k : A -> io B) : bind ([], Ok a) k = k a.
Proof. unfold bind. now destruct (k a). Qed.

Lemma bind_emit {B : Type} (ev : event) (k : unit -> io B) :
  bind (emit ev) k = (ev :: trace (k tt), result (k tt)).
Proof. unfold bind, emit. now destruct (k tt). Qed.

(** ** The completion call, case by case *)

(** The three ways a call can end: the key is missing; a request is sent
    and its answer gives a value; a request is sent and an error is shown. *)
Lemma make_api_request_shapes (st : session_state) (net : transport)
    (prompt system_prompt : string) :
  (api_key st = EmptyString
   /\ make_api_request st net prompt system_prompt
      = ([st_error "Please enter your OpenRouter API key in the sidebar."], Ok JNull))
  \/ (api_key st <> EmptyString
      /\ exists v : json,
           make_api_request st net prompt system_prompt
           = ([requests_post (sent_request st prompt system_prompt)], Ok v))
  \/ (api_key st <> EmptyString
      /\ exists body : string,
           make_api_request st net prompt system_prompt
           = ([requests_post (sent_request st prompt system_prompt); st_error body],
              Ok JNull)).
Proof.
  unfold make_api_request. destruct (truthy (api_key st)) eqn:Hkey; simpl.
  - right.
    change (mk_request endpoint (request_headers st)
              (request_data prompt system_prompt) 60)
      with (sent_request st prompt system_prompt).
    assert (Hk : api_key st <> EmptyString) by now apply truthy_true.
    unfold post, lift, emit, bind, try_except. simpl.
    destruct (net (sent_request st prompt system_prompt)) as [resp|e]; simpl.
    + unfold raise_for_status.
      destruct ((400 <=? status_code resp) && (status_code resp <? 500)); simpl;
        [right; split; [exact Hk | eexists; reflexivity] |].
      destruct ((500 <=? status_code resp) && (status_code resp <? 600)); simpl;
        [right; split; [exact Hk | eexists; reflexivity] |].
      destruct (response_json resp) as [body|e]; simpl;
        [| destruct (is_RequestException e); simpl;
           right; split; [exact Hk | eexists; reflexivity | exact Hk | eexists; reflexivity]].
      destruct (getitem_key body "choices") as [choices|e]; simpl;
        [| destruct (is_RequestException e); simpl;
           right; split; [exact Hk | eexists; reflexivity | exact Hk | eexists; reflexivity]].
      destruct (getitem_0 choices) as [first|e]; simpl;
        [| destruct (is_RequestException e); simpl;
           right; split; [exact Hk | eexists; reflexivity | exact Hk | eexists; reflexivity]].
      destruct (getitem_key first "message") as [message|e]; simpl;
        [| destruct (is_RequestException e); simpl;
           right; split; [exact Hk | eexists; reflexivity | exact Hk | eexists; reflexivity]].
      destruct (getitem_key message "content") as [content|e]; simpl;
        [| destruct (is_RequestException e); simpl;
           right; split; [exact Hk | eexists; reflexivity | exact Hk | eexists; reflexivity]].
      left. split; [exact Hk | eexists; reflexivity].
    + destruct (is_RequestException e); simpl;
        right; (split; [exact Hk | eexists; reflexivity]).
  - left. split; [now apply truthy_false | reflexivity].
Qed.

(** X1: [make_api_request] never raises, whatever the network does, and it
    sends exactly one request when a key is stored and none when the key is
    empty: there is no retry. *)
Theorem make_api_request_total (st : session_state) (net : transport)
    (prompt system_prompt : string) :
  exists (tr : list event) (v : json),
    make_api_request st net prompt system_prompt = (tr, Ok v)
    /\ posts tr = (if truthy (api_key st)
                   then [sent_request st prompt system_prompt]
                   else []).
Proof.
  destruct (make_api_request_shapes st net prompt system_prompt)
    as [[Hk ->] | [[Hk [v ->]] | [Hk [body ->]]]].
  - rewrite Hk. now eexists _, _.
  - apply truthy_true in Hk. rewrite Hk. now eexists _, _.
  - apply truthy_true in Hk. rewrite Hk. now eexists _, _.
Qed.

Lemma answered_call (st : session_state) (net : transport)
    (prompt system_prompt : string) (content : json) :
  api_key st <> EmptyString ->
  answers net (sent_request st prompt system_prompt) content ->
  make_api_request st net prompt system_prompt
  = ([requests_post (sent_request st prompt system_prompt)], Ok content).
Proof.
  intros Hkey (resp & body & choices & first & message
               & Hnet & Hstatus & Hbody & Hch & Hfirst & Hmsg & Hcontent).
  unfold make_api_request. apply truthy_true in Hkey. rewrite Hkey. simpl.
  change (mk_request endpoint (request_headers st)
            (request_data prompt system_prompt) 60)
    with (sent_request st prompt system_prompt).
  unfold post, lift, emit, bind, try_except. simpl. rewrite Hnet. simpl.
  unfold raise_for_status.
  replace ((400 <=? status_code resp) && (status_code resp <? 500)) with false
    by (symmetry; apply andb_false_iff;
        destruct (Z.leb_spec 400 (status_code resp));
        destruct (Z.ltb_spec (status_code resp) 500); auto; lia).
  replace ((500 <=? status_code resp) && (status_code resp <? 600)) with false
    by (symmetry; apply andb_false_iff;
        destruct (Z.leb_spec 500 (status_code resp));
        destruct (Z.ltb_spec (status_code resp) 600); auto; lia).
  simpl. rewrite Hbody. simpl. rewrite Hch. simpl. rewrite Hfirst. simpl.
  rewrite Hmsg. simpl. rewrite Hcontent. reflexivity.
Qed.

(** X2: when the response is not an HTTP error and its body has
    [choices[0].message.content], the call returns that content unchanged
    and shows nothing. *)
Theorem make_api_request_success (st : session_state) (net : transport)
    (prompt system_prompt : string) (resp : response)
    (body choices first message content : json) :
  api_key st <> EmptyString ->
  net (sent_request st prompt system_prompt) = Ok resp ->
  ~ (400 <= status_code resp < 600) ->
  response_json resp = Ok body ->
  getitem_key body "choices" = Ok choices ->
  getitem_0 choices = Ok first ->
  getitem_key first "message" = Ok message ->
  getitem_key message "content" = Ok content ->
  make_api_request st net prompt system_prompt
  = ([requests_post (sent_request st prompt system_prompt)], Ok content).
Proof.
  intros Hkey Hnet Hstatus Hbody Hch Hfirst Hmsg Hcontent.
  apply answered_call; [exact Hkey |].
  exists resp, body, choices, first, message. repeat split; assumption.
Qed.

Lemma make_api_request_success_witness :
  let body :=
    JObj [ ("id", JStr "gen-1");
           ("choices",
            JArr [ JObj [ ("index", JInt 0);
                          ("message", JObj [ ("role", JStr "assistant");
                                             ("content", JStr "  Clause 4 caps liability.  ") ]);
                          ("finish_reason", JStr "stop") ] ]) ] in
  make_api_request (mk_session "sk-test")
    (fun _ => Ok (mk_response 200 "OK" endpoint (Ok body)))
    "Summarise clause 4." "You are a helpful legal AI assistant."
  = ([requests_post (sent_request (mk_session "sk-test") "Summarise clause 4."
                       "You are a helpful legal AI assistant.")],
     Ok (JStr "  Clause 4 caps liability.  ")).
Proof.
  intros body.
  apply (make_api_request_success (mk_session "sk-test")
           (fun _ => Ok (mk_response 200 "OK" endpoint (Ok body)))
           "Summarise clause 4." "You are a helpful legal AI assistant."
           (mk_response 200 "OK" endpoint (Ok body)) body
           (JArr [ JObj [ ("index", JInt 0);
                          ("message", JObj [ ("role", JStr "assistant");
                                             ("content", JStr "  Clause 4 caps liability.  ") ]);
                          ("finish_reason", JStr "stop") ] ])
           (JObj [ ("index", JInt 0);
                   ("message", JObj [ ("role", JStr "assistant");
                                      ("content", JStr "  Clause 4 caps liability.  ") ]);
                   ("finish_reason", JStr "stop") ])
           (JObj [ ("role", JStr "assistant");
                   ("content", JStr "  Clause 4 caps liability.  ") ])
           (JStr "  Clause 4 caps liability.  "));
    try reflexivity.
  - discriminate.
  - simpl. lia.
Defined.

(** X3: when [requests.post] itself raises (no connection, timeout), the
    call shows the exception after [API request failed:] if it is a
    [RequestException] and after [An error occurred:] otherwise, and returns
    [None]. *)
Theorem make_api_request_transport_failure (st : session_state) (net : transport)
    (prompt system_prompt : string) (e : exn) :
  api_key st <> EmptyString ->
  net (sent_request st prompt system_prompt) = Raise e ->
  make_api_request st net prompt system_prompt
  = ([ requests_post (sent_request st prompt system_prompt);
       st_error ((if is_RequestException e
                  then "API request failed: " else "An error occurred: ")
                 +:+ str_exn e) ],
     Ok JNull).
Proof.
  intros Hkey Hnet. unfold make_api_request.
  apply truthy_true in Hkey. rewrite Hkey. simpl.
  change (mk_request endpoint (request_headers st)
            (request_data prompt system_prompt) 60)
    with (sent_request st prompt system_prompt).
  unfold post, lift, emit, bind, try_except. simpl. rewrite Hnet. simpl.
  destruct (is_RequestException e); reflexivity.
Qed.

Lemma make_api_request_transport_failure_witness :
  make_api_request (mk_session "sk-test")
    (fun _ => Raise (RequestException "Read timed out. (read timeout=60)"))
    "Summarise clause 4." "You are a helpful legal AI assistant."
  = ([ requests_post (sent_request (mk_session "sk-test") "Summarise clause 4."
                        "You are a helpful legal AI assistant.");
       st_error "API request failed: Read timed out. (read timeout=60)" ],
     Ok JNull).
Proof.
  apply (make_api_request_transport_failure (mk_session "sk-test")
           (fun _ => Raise (RequestException "Read timed out. (read timeout=60)"))
           "Summarise clause 4." "You are a helpful legal AI assistant."
           (RequestException "Read timed out. (read timeout=60)")).
  - discriminate.
  - reflexivity.
Defined.

(** X4: a response that is not an HTTP error but whose body is a JSON
    object without [choices], or with an empty list of choices, ends in
    [An error occurred:] with the text of the [KeyError] or [IndexError],
    and the call returns [None]. *)
Theorem make_api_request_malformed (st : session_state) (net : transport)
    (prompt system_prompt : string) (resp : response)
    (fields : list (string * json)) :
  api_key st <> EmptyString ->
  net (sent_request st prompt system_prompt) = Ok resp ->
  ~ (400 <= status_code resp < 600) ->
  response_json resp = Ok (JObj fields) ->
  (assoc "choices" fields = None ->
   make_api_request st net prompt system_prompt
   = ([ requests_post (sent_request st prompt system_prompt);
        st_error "An error occurred: 'choices'" ],
      Ok JNull))
  /\ (assoc "choices" fields = Some (JArr []) ->
      make_api_request st net prompt system_prompt
      = ([ requests_post (sent_request st prompt system_prompt);
           st_error "An error occurred: list index out of range" ],
         Ok JNull)).
Proof.
  intros Hkey Hnet Hstatus Hbody.
  unfold make_api_request. apply truthy_true in Hkey. rewrite Hkey. simpl.
  change (mk_request endpoint (request_headers st)
            (request_data prompt system_prompt) 60)
    with (sent_request st prompt system_prompt).
  unfold post, lift, emit, bind, try_except. simpl. rewrite Hnet. simpl.
  unfold raise_for_status.
  replace ((400 <=? status_code resp) && (status_code resp <? 500)) with false
    by (symmetry; apply andb_false_iff;
        destruct (Z.leb_spec 400 (status_code resp));
        destruct (Z.ltb_spec (status_code resp) 500); auto; lia).
  replace ((500 <=? status_code resp) && (status_code resp <? 600)) with false
    by (symmetry; apply andb_false_iff;
        destruct (Z.leb_spec 500 (status_code resp));
        destruct (Z.ltb_spec (status_code resp) 600); auto; lia).
  simpl. rewrite Hbody. simpl. split; intros Hch; rewrite Hch; reflexivity.
Qed.

Lemma make_api_request_malformed_witness :
  make_api_request (mk_session "sk-test")
    (fun _ => Ok (mk_response 200 "OK" endpoint
                    (Ok (JObj [("error", JObj [("message", JStr "Rate limited")])]))))
    "Summarise clause 4." "You are a helpful legal AI assistant."
  = ([ requests_post (sent_request (mk_session "sk-test") "Summarise clause 4."
                        "You are a helpful legal AI assistant.");
       st_error "An error occurred: 'choices'" ],
     Ok JNull).
Proof.
  destruct (make_api_request_malformed (mk_session "sk-test")
              (fun _ => Ok (mk_response 200 "OK" endpoint
                              (Ok (JObj [("error", JObj [("message", JStr "Rate limited")])]))))
              "Summarise clause 4." "You are a helpful legal AI assistant."
              (mk_response 200 "OK" endpoint
                 (Ok (JObj [("error", JObj [("message", JStr "Rate limited")])])))
              [("error", JObj [("message", JStr "Rate limited")])])
    as [Hmissing _].
  - discriminate.
  - reflexivity.
  - simpl. lia.
  - reflexivity.
  - apply Hmissing. reflexivity.
Defined.

(** X5: whenever the call shows an error, it returns [None]: a value that a
    caller displays never comes with an error message. *)
Theorem make_api_request_error_means_none (st : session_state) (net : transport)
    (prompt system_prompt body : string) :
  In (st_error body) (trace (make_api_request st net prompt system_prompt)) ->
  result (make_api_request st net prompt system_prompt) = Ok JNull.
Proof.
  destruct (make_api_request_shapes st net prompt system_prompt)
    as [[_ ->] | [[_ [v ->]] | [_ [b ->]]]]; simpl; intros Hin.
  - reflexivity.
  - destruct Hin as [Hin | []]. discriminate.
  - reflexivity.
Qed.

Lemma make_api_request_error_means_none_witness :
  result (make_api_request (mk_session "sk-test")
            (fun _ => Ok (mk_response 503 "Service Unavailable" endpoint
                            (Ok (envelope "stale"))))
            "Summarise clause 4." "You are a helpful legal AI assistant.")
  = Ok JNull.
Proof.
  apply (make_api_request_error_means_none (mk_session "sk-test")
           (fun _ => Ok (mk_response 503 "Service Unavailable" endpoint
                           (Ok (envelope "stale"))))
           "Summarise clause 4." "You are a helpful legal AI assistant."
           "API request failed: 503 Server Error: Service Unavailable for url: https://openrouter.ai/api/v1/chat/completions").
  vm_compute. right. left. reflexivity.
Defined.

(** ** The handlers, step by step *)

Lemma show_result_value (heading : string) (v : json) :
  show_result heading v = (result_display heading v, Ok tt).
Proof. reflexivity. Qed.

(** A spinner, the call, and a display when the result is true. *)
Lemma spinner_call_display (st : session_state) (net : transport)
    (text prompt system_prompt : string) (k : json -> io unit)
    (shown : json -> list event) (tr : list event) (v : json) :
  (forall r, k r = (shown r, Ok tt)) ->
  make_api_request st net prompt system_prompt = (tr, Ok v) ->
  (emit (st_spinner text) ;;;
   result <- make_api_request st net prompt system_prompt ;;
   (if json_truthy result then k result else ret tt))
  = (st_spinner text :: tr ++ (if json_truthy v then shown v else []), Ok tt).
Proof.
  intros Hk Hcall. rewrite bind_emit, Hcall. unfold bind.
  destruct (json_truthy v); [rewrite Hk |]; reflexivity.
Qed.

Lemma analyze_contract_trace (st : session_state) (net : transport)
    (contract_text analysis_type : string) (focus_areas : list string)
    (contract_type : string) (tr : list event) (v : json) :
  all_space contract_text = false ->
  make_api_request st net contract_text
    (contract_system_prompt analysis_type focus_areas contract_type) = (tr, Ok v) ->
  analyze_contract st net contract_text analysis_type focus_areas contract_type
  = (st_spinner "Analyzing contract..." :: tr
       ++ (if json_truthy v then result_display "### Analysis Results" v else []),
     Ok tt).
Proof.
  intros Hv Hcall. unfold analyze_contract.
  rewrite contract_text_test, Hv. simpl negb. cbv iota.
  apply (spinner_call_display st net _ _ _
           (fun result => show_result "### Analysis Results" result)
           (result_display "### Analysis Results") tr v); [| exact Hcall].
  intros r. apply show_result_value.
Qed.

Lemma analyze_contract_blank (st : session_state) (net : transport)
    (contract_text analysis_type : string) (focus_areas : list string)
    (contract_type : string) :
  all_space contract_text = true ->
  analyze_contract st net contract_text analysis_type focus_areas contract_type
  = ([st_warning "Please provide contract text or upload a contract file to analyze."],
     Ok tt).
Proof.
  intros Hv. unfold analyze_contract. rewrite contract_text_test, Hv. reflexivity.
Qed.

Lemma research_cases_trace (st : session_state) (net : transport)
    (legal_issue case_context : string) (jurisdiction_filter : list string)
    (case_type time_period : string) (tr : list event) (v : json) :
  all_space legal_issue = false ->
  make_api_request st net
    (research_query legal_issue case_context jurisdiction_filter case_type time_period)
    (research_system_prompt jurisdiction_filter case_type time_period) = (tr, Ok v) ->
  research_cases st net legal_issue case_context jurisdiction_filter case_type
    time_period
  = (st_spinner "Researching case law..." :: tr
       ++ (if json_truthy v
           then result_display "### Case Law Research Results" v else []),
     Ok tt).
Proof.
  intros Hv Hcall. unfold research_cases.
  rewrite strip_blank, Hv. simpl negb. cbv iota zeta.
  apply (spinner_call_display st net _ _ _
           (fun result => show_result "### Case Law Research Results" result)
           (result_display "### Case Law Research Results") tr v); [| exact Hcall].
  intros r. apply show_result_value.
Qed.

Lemma research_cases_blank (st : session_state) (net : transport)
    (legal_issue case_context : string) (jurisdiction_filter : list string)
    (case_type time_period : string) :
  all_space legal_issue = true ->
  research_cases st net legal_issue case_context jurisdiction_filter case_type
    time_period
  = ([st_warning "Please describe the legal issue you want to research."], Ok tt).
Proof.
  intros Hv. unfold research_cases. rewrite strip_blank, Hv. reflexivity.
Qed.

(** What the memorandum form shows for a result. *)
Lemma generate_memorandum_trace (st : session_state) (net : transport)
    (strftime : string -> string)
    (memo_to memo_from memo_subject facts legal_question memo_type priority
       analysis_depth : string) (include_recommendations : bool)
    (tr : list event) (v : json) :
  forallb truthy [memo_subject; facts; legal_question] = true ->
  make_api_request st net
    (memo_content memo_to memo_from memo_subject memo_type facts legal_question)
    (memo_system_prompt memo_type analysis_depth priority include_recommendations)
  = (tr, Ok v) ->
  generate_memorandum st net strftime memo_to memo_from memo_subject facts
    legal_question memo_type priority analysis_depth include_recommendations
  = (st_spinner "Generating memorandum..." :: tr
       ++ (if json_truthy v
           then result_display "### Generated Legal Memorandum" v
                ++ [st_download_button "📥 Download Memorandum" v
                      ("Legal_Memo_" +:+ strftime "%Y%m%d_%H%M" +:+ ".txt")
                      "text/plain"]
           else []),
     Ok tt).
Proof.
  intros Hv Hcall. unfold generate_memorandum. rewrite Hv. cbv zeta.
  apply (spinner_call_display st net _ _ _
           (fun result =>
              show_result "### Generated Legal Memorandum" result ;;;
              emit (st_download_button "📥 Download Memorandum" result
                      ("Legal_Memo_" +:+ strftime "%Y%m%d_%H%M" +:+ ".txt")
                      "text/plain"))
           (fun r => result_display "### Generated Legal Memorandum" r
                     ++ [st_download_button "📥 Download Memorandum" r
                           ("Legal_Memo_" +:+ strftime "%Y%m%d_%H%M" +:+ ".txt")
                           "text/plain"])
           tr v); [| exact Hcall].
  intros r. reflexivity.
Qed.

Lemma check_compliance_trace (st : session_state) (net : transport)
    (industry business_description specific_concerns business_size : string)
    (geographic_scope compliance_areas : list string) (tr : list event) (v : json) :
  all_space business_description = false ->
  make_api_request st net
    (compliance_query industry business_description specific_concerns business_size
       geographic_scope compliance_areas)
    (compliance_system_prompt industry business_size geographic_scope compliance_areas)
  = (tr, Ok v) ->
  check_compliance st net industry business_description specific_concerns
    business_size geographic_scope compliance_areas
  = (st_spinner "Analyzing compliance requirements..." :: tr
       ++ (if json_truthy v
           then result_display "### Compliance Analysis Results" v
                ++ [ st_markdown (JStr warning_box_open) true;
                     st_markdown (JStr important_notice) false;
                     st_markdown (JStr "</div>") true ]
           else []),
     Ok tt).
Proof.
  intros Hv Hcall. unfold check_compliance.
  rewrite strip_blank, Hv. simpl negb. cbv iota zeta.
  apply (spinner_call_display st net _ _ _
           (fun result =>
              show_result "### Compliance Analysis Results" result ;;;
              emit (st_markdown (JStr warning_box_open) true) ;;;
              emit (st_markdown (JStr important_notice) false) ;;;
              emit (st_markdown (JStr "</div>") true))
           (fun r => result_display "### Compliance Analysis Results" r
                     ++ [ st_markdown (JStr warning_box_open) true;
                          st_markdown (JStr important_notice) false;
                          st_markdown (JStr "</div>") true ])
           tr v); [| exact Hcall].
  intros r. reflexivity.
Qed.

Lemma check_compliance_blank (st : session_state) (net : transport)
    (industry business_description specific_concerns business_size : string)
    (geographic_scope compliance_areas : list string) :
  all_space business_description = true ->
  check_compliance st net industry business_description specific_concerns
    business_size geographic_scope compliance_areas
  = ([st_warning "Please provide a business description to analyze compliance requirements."],
     Ok tt).
Proof.
  intros Hv. unfold check_compliance. rewrite strip_blank, Hv. reflexivity.
Qed.

Lemma drafting_system_prompt_text_value (document_type document_details duration
    compensation jurisdiction parties : string) :
  drafting_system_prompt
    (drafting_namespace document_type document_details duration compensation
       jurisdiction parties)
  = ([], Ok (drafting_system_prompt_text document_type jurisdiction)).
Proof.
  destruct (drafting_namespace_lookup document_type document_details duration
              compensation jurisdiction parties) as (Hty & _ & Hju & _).
  unfold drafting_system_prompt, drafting_system_prompt_text.
  rewrite (load_bound _ _ _ Hty), (load_or_bound _ _ "general" _ Hju).
  reflexivity.
Qed.

Lemma generate_document_trace (st : session_state) (net : transport)
    (strftime : string -> string)
    (document_type document_details duration compensation jurisdiction
       parties : string) (tr : list event) (v : json) :
  all_space document_details = false ->
  make_api_request st net
    (drafting_full_prompt_text document_type document_details duration compensation
       jurisdiction parties)
    (drafting_system_prompt_text document_type jurisdiction) = (tr, Ok v) ->
  generate_document st net strftime
    (drafting_namespace document_type document_details duration compensation
       jurisdiction parties)
  = (st_spinner "Drafting document..." :: tr
       ++ (if json_truthy v
           then result_display "### Generated Document" v
                ++ [st_download_button "📥 Download Document" v
                      (replace_char " " "_" document_type +:+ "_"
                       +:+ strftime "%Y%m%d" +:+ ".txt")
                      "text/plain"]
           else []),
     Ok tt).
Proof.
  intros Hv Hcall.
  destruct (drafting_namespace_lookup document_type document_details duration
              compensation jurisdiction parties) as (Hty & Hde & _).
  unfold generate_document.
  rewrite (load_bound _ _ _ Hde), bind_ret, strip_blank, Hv. simpl negb. cbv iota.
  rewrite drafting_system_prompt_text_value, bind_ret,
    drafting_full_prompt_value, bind_ret.
  apply (spinner_call_display st net _ _ _
           (fun result =>
              show_result "### Generated Document" result ;;;
              document_type0 <-
                load (drafting_namespace document_type document_details duration
                        compensation jurisdiction parties) "document_type" ;;
              emit (st_download_button "📥 Download Document" result
                      (replace_char " " "_" document_type0 +:+ "_"
                       +:+ strftime "%Y%m%d" +:+ ".txt")
                      "text/plain"))
           (fun r => result_display "### Generated Document" r
                     ++ [st_download_button "📥 Download Document" r
                           (replace_char " " "_" document_type +:+ "_"
                            +:+ strftime "%Y%m%d" +:+ ".txt")
                           "text/plain"])
           tr v); [| exact Hcall].
  intros r. rewrite (load_bound _ _ _ Hty). reflexivity.
Qed.

Lemma generate_document_blank (st : session_state) (net : transport)
    (strftime : string -> string)
    (document_type document_details duration compensation jurisdiction
       parties : string) :
  all_space document_details = true ->
  generate_document st net strftime
    (drafting_namespace document_type document_details duration compensation
       jurisdiction parties)
  = ([st_warning "Please provide document details and requirements."], Ok tt).
Proof.
  intros Hv.
  destruct (drafting_namespace_lookup document_type document_details duration
              compensation jurisdiction parties) as (_ & Hde & _).
  unfold generate_document.
  rewrite (load_bound _ _ _ Hde), bind_ret, strip_blank, Hv. reflexivity.
Qed.

(** ** The shape of a run *)

Lemma call_returns (st : session_state) (net : transport)
    (prompt system_prompt : string) :
  exists (tr : list event) (v : json),
    make_api_request st net prompt system_prompt = (tr, Ok v).
Proof.
  destruct (make_api_request_shapes st net prompt system_prompt)
    as [[_ ->] | [[_ [v ->]] | [_ [b ->]]]]; now eexists _, _.
Qed.

Lemma analyze_contract_shape (st : session_state) (net : transport)
    (contract_text analysis_type : string) (focus_areas : list string)
    (contract_type : string) :
  handler_shape st net
    (analyze_contract st net contract_text analysis_type focus_areas contract_type).
Proof.
  destruct (all_space contract_text) eqn:Hv.
  - left. eexists. now apply analyze_contract_blank.
  - right.
    destruct (call_returns st net contract_text
                (contract_system_prompt analysis_type focus_areas contract_type))
      as [tr [v Hcall]].
    eexists _, _, _, tr, _, v. split; [exact Hcall |].
    split; [now apply analyze_contract_trace | reflexivity].
Qed.

Lemma generate_document_shape (st : session_state) (net : transport)
    (strftime : string -> string)
    (document_type document_details duration compensation jurisdiction
       parties : string) :
  handler_shape st net
    (generate_document st net strftime
       (drafting_namespace document_type document_details duration compensation
          jurisdiction parties)).
Proof.
  destruct (all_space document_details) eqn:Hv.
  - left. eexists. now apply generate_document_blank.
  - right.
    destruct (call_returns st net
                (drafting_full_prompt_text document_type document_details duration
                   compensation jurisdiction parties)
                (drafting_system_prompt_text document_type jurisdiction))
      as [tr [v Hcall]].
    eexists _, _, _, tr, _, v. split; [exact Hcall |].
    split; [now apply generate_document_trace | reflexivity].
Qed.

Lemma research_cases_shape (st : session_state) (net : transport)
    (legal_issue case_context : string) (jurisdiction_filter : list string)
    (case_type time_period : string) :
  handler_shape st net
    (research_cases st net legal_issue case_context jurisdiction_filter case_type
       time_period).
Proof.
  destruct (all_space legal_issue) eqn:Hv.
  - left. eexists. now apply research_cases_blank.
  - right.
    destruct (call_returns st net
                (research_query legal_issue case_context jurisdiction_filter
                   case_type time_period)
                (research_system_prompt jurisdiction_filter case_type time_period))
      as [tr [v Hcall]].
    eexists _, _, _, tr, _, v. split; [exact Hcall |].
    split; [now apply research_cases_trace | reflexivity].
Qed.

Lemma generate_memorandum_shape (st : session_state) (net : transport)
    (strftime : string -> string)
    (memo_to memo_from memo_subject facts legal_question memo_type priority
       analysis_depth : string) (include_recommendations : bool) :
  handler_shape st net
    (generate_memorandum st net strftime memo_to memo_from memo_subject facts
       legal_question memo_type priority analysis_depth include_recommendations).
Proof.
  destruct (forallb truthy [memo_subject; facts; legal_question]) eqn:Hv.
  - right.
    destruct (call_returns st net
                (memo_content memo_to memo_from memo_subject memo_type facts
                   legal_question)
                (memo_system_prompt memo_type analysis_depth priority
                   include_recommendations))
      as [tr [v Hcall]].
    eexists _, _, _, tr, _, v. split; [exact Hcall |].
    split; [now apply generate_memorandum_trace | reflexivity].
  - left. eexists. unfold generate_memorandum. now rewrite Hv.
Qed.

Lemma check_compliance_shape (st : session_state) (net : transport)
    (industry business_description specific_concerns business_size : string)
    (geographic_scope compliance_areas : list string) :
  handler_shape st net
    (check_compliance st net industry business_description specific_concerns
       business_size geographic_scope compliance_areas).
Proof.
  destruct (all_space business_description) eqn:Hv.
  - left. eexists. now apply check_compliance_blank.
  - right.
    destruct (call_returns st net
                (compliance_query industry business_description specific_concerns
                   business_size geographic_scope compliance_areas)
                (compliance_system_prompt industry business_size geographic_scope
                   compliance_areas))
      as [tr [v Hcall]].
    eexists _, _, _, tr, _, v. split; [exact Hcall |].
    split; [now apply check_compliance_trace | reflexivity].
Qed.

(** Reading the contract shows nothing and gives a text, or shows one error
    and gives the empty text. *)
Lemma read_contract_shapes (uploaded_file : option upload) (text_area : string) :
  (exists text : string, read_contract uploaded_file text_area = ([], Ok text))
  \/ (exists body : string,
        read_contract uploaded_file text_area = ([st_error body], Ok EmptyString)).
Proof.
  unfold read_contract. destruct uploaded_file as [f|]; [| left; now eexists].
  destruct (String.eqb _ "pdf").
  - destruct (PdfReader f) as [pages|e]; [| right; now eexists]. simpl.
    destruct (page_texts pages); [left | right]; now eexists.
  - destruct (String.eqb _ "docx"); [| left; now eexists].
    destruct (Document f); [left | right]; now eexists.
Qed.

(** A run with the button clicked: what reading the upload shows, then the
    handler; after a read error the handler can only warn. *)
Lemma run_clicked_shape (st : session_state) (net : transport)
    (strftime : string -> string) (f : form) :
  exists (pre : list event) (m : io unit),
    run st net strftime f true = (pre ++ trace m, Ok tt)
    /\ ((pre = [] /\ handler_shape st net m)
        \/ (exists body w : string,
              pre = [st_error body] /\ m = ([st_warning w], Ok tt))).
Proof.
  assert (Hres : forall m, handler_shape st net m -> m = (trace m, Ok tt)).
  { intros m [[w ->] | (text & p & sp & tr & shown & v & _ & -> & _)]; reflexivity. }
  destruct f; simpl.
  - destruct (read_contract_shapes uploaded_file text_area) as [[text ->] | [body ->]].
    + rewrite bind_ret.
      exists [], (analyze_contract st net text analysis_type focus_areas contract_type).
      split; [| left; split; [reflexivity | apply analyze_contract_shape]].
      apply Hres, analyze_contract_shape.
    + unfold bind.
      rewrite (analyze_contract_blank st net EmptyString analysis_type focus_areas
                 contract_type eq_refl).
      eexists [st_error body], (_, Ok tt). split; [reflexivity |].
      right. now eexists _, _.
  - eexists [], _. split; [apply Hres, generate_document_shape |].
    left. split; [reflexivity | apply generate_document_shape].
  - eexists [], _. split; [apply Hres, research_cases_shape |].
    left. split; [reflexivity | apply research_cases_shape].
  - eexists [], _. split; [apply Hres, generate_memorandum_shape |].
    left. split; [reflexivity | apply generate_memorandum_shape].
  - eexists [], _. split; [apply Hres, check_compliance_shape |].
    left. split; [reflexivity | apply check_compliance_shape].
Qed.

Lemma run_unclicked_shape (st : session_state) (net : transport)
    (strftime : string -> string) (f : form) :
  run st net strftime f false = ([], Ok tt)
  \/ exists body : string, run st net strftime f false = ([st_error body], Ok tt).
Proof.
  destruct f; simpl; try (left; reflexivity).
  destruct (read_contract_shapes uploaded_file text_area) as [[text ->] | [body ->]].
  - left. reflexivity.
  - right. now exists body.
Qed.

Lemma display_is_no_error (shown : list event) :
  forallb is_display shown = true ->
  existsb is_error shown = false /\ posts shown = [].
Proof.
  induction shown as [|ev shown IH]; [now split |].
  simpl. intros H. apply andb_true_iff in H. destruct H as [Hev Hrest].
  destruct (IH Hrest) as [IH1 IH2]. destruct ev; try discriminate; simpl; now split.
Qed.


(** The requests of a run: none, or one built from a stored key after a
    click. *)
Lemma run_posts_cases (st : session_state) (net : transport)
    (strftime : string -> string) (f : form) (clicked : bool) :
  posts (trace (run st net strftime f clicked)) = []
  \/ (api_key st <> EmptyString /\ clicked = true
      /\ exists prompt system_prompt : string,
           posts (trace (run st net strftime f clicked))
           = [sent_request st prompt system_prompt]).
Proof.
  destruct clicked.
  - destruct (run_clicked_shape st net strftime f) as (pre & m & -> & Hshape).
    simpl trace. rewrite posts_app.
    destruct Hshape as [[-> Hm] | (body & w & -> & ->)]; [| now left].
    destruct Hm as [[w ->] | (text & p & sp & tr & shown & v & Hcall & -> & Hshown)];
      [now left |].
    apply display_is_no_error in Hshown. destruct Hshown as [_ Hshown].
    simpl. rewrite posts_app.
    assert (Hrest : posts (if json_truthy v then shown else []) = [])
      by (now destruct (json_truthy v)).
    rewrite Hrest, app_nil_r.
    destruct (make_api_request_shapes st net p sp)
      as [[Hk Heq] | [[Hk [v' Heq]] | [Hk [b Heq]]]];
      rewrite Heq in Hcall; injection Hcall as <- <-; simpl.
    + now left.
    + right. split; [exact Hk |]. split; [reflexivity | now exists p, sp].
    + right. split; [exact Hk |]. split; [reflexivity | now exists p, sp].
  - left. destruct (run_unclicked_shape st net strftime f) as [-> | [body ->]];
      reflexivity.
Qed.

(** X7: a run sends at most one request; it sends none when the button was
    not clicked, and none when the stored key is empty. *)
Theorem run_sends_at_most_one (st : session_state) (net : transport)
    (strftime : string -> string) (f : form) (clicked : bool) :
  (length (posts (trace (run st net strftime f clicked))) <= 1)%nat
  /\ (clicked = false -> posts (trace (run st net strftime f clicked)) = [])
  /\ (api_key st = EmptyString ->
      posts (trace (run st net strftime f clicked)) = []).
Proof.
  destruct (run_posts_cases st net strftime f clicked)
    as [-> | (Hk & Hc & p & sp & ->)].
  - simpl. repeat split; auto.
  - simpl. repeat split; auto; intros; congruence.
Qed.

Lemma run_sends_at_most_one_witness :
  posts (trace (run (mk_session EmptyString)
                  (fun _ => Ok (mk_response 200 "OK" endpoint (Ok (envelope "Draft."))))
                  (fun _ => "20240131")
                  (DocumentDrafting "Privacy Policy" "Cookies and analytics." "" ""
                     "Selangor" "")
                  true))
  = [].
Proof.
  destruct (run_sends_at_most_one (mk_session EmptyString)
              (fun _ => Ok (mk_response 200 "OK" endpoint (Ok (envelope "Draft."))))
              (fun _ => "20240131")
              (DocumentDrafting "Privacy Policy" "Cookies and analytics." "" ""
                 "Selangor" "")
              true) as (_ & _ & Hkey).
  apply Hkey. reflexivity.
Defined.

(** X8: no run shows both an error and a result: after any [st.error],
    neither a result box nor a download button follows or precedes. *)
Theorem run_error_excludes_result (st : session_state) (net : transport)
    (strftime : string -> string) (f : form) (clicked : bool) :
  existsb is_error (trace (run st net strftime f clicked))
  && existsb is_display (trace (run st net strftime f clicked)) = false.
Proof.
  destruct clicked.
  - destruct (run_clicked_shape st net strftime f) as (pre & m & -> & Hshape).
    simpl trace.
    destruct Hshape as [[-> Hm] | (body & w & -> & ->)]; [| reflexivity].
    destruct Hm as [[w ->] | (text & p & sp & tr & shown & v & Hcall & -> & Hshown)];
      [reflexivity |].
    apply display_is_no_error in Hshown. destruct Hshown as [Hshown _].
    simpl.
    destruct (make_api_request_shapes st net p sp)
      as [[Hk Heq] | [[Hk [v' Heq]] | [Hk [b Heq]]]];
      rewrite Heq in Hcall; injection Hcall as <- <-; simpl; try reflexivity.
    destruct (json_truthy v'); simpl; [now rewrite Hshown | reflexivity].
  - destruct (run_unclicked_shape st net strftime f) as [-> | [body ->]];
      reflexivity.
Qed.

(** ** Validation by [strip] *)










(** ** What a run shows for an answer *)









(** ** Uploaded files *)

Lemma last_field_from_plain (sep : ascii) (acc s : string) :
  has_char sep s = false -> last_field_from sep acc s = acc +:+ s.
Proof.
  revert acc. induction s as [|c s IH]; intros acc H.
  - simpl. now rewrite append_nil_r.
  - simpl in H. apply orb_false_iff in H. destruct H as [Hc Hs].
    simpl. rewrite Hc, IH by exact Hs.
    now rewrite append_assoc.
Qed.

Lemma last_field_from_after (sep : ascii) (acc base ext : string) :
  has_char sep ext = false ->
  last_field_from sep acc (base +:+ String sep ext) = ext.
Proof.
  revert acc. induction base as [|c base IH]; intros acc H.
  - change (EmptyString +:+ String sep ext) with (String sep ext).
    simpl. rewrite Ascii.eqb_refl. now apply last_field_from_plain.
  - rewrite append_cons. simpl. destruct (Ascii.eqb c sep); now apply IH.
Qed.

(** X17: the type of an uploaded file is the text after the last dot of its
    name, in lower case: a file named with any base and an extension
    written [pdf] in any mix of cases goes to the PDF reader, so that a
    reader failure is reported as a PDF failure. *)
Theorem file_type_is_last_extension (f : upload) (base ext text_area : string) :
  name f = base +:+ "." +:+ ext ->
  has_char "." ext = false ->
  lower (last_field "." (name f)) = lower ext
  /\ (lower ext = "pdf" ->
      forall e : exn,
        PdfReader f = Raise e ->
        read_contract (Some f) text_area
        = ([st_error ("Could not read PDF: " +:+ str_exn e)], Ok EmptyString))
  /\ (lower ext = "docx" ->
      forall e : exn,
        Document f = Raise e ->
        read_contract (Some f) text_area
        = ([st_error ("Could not read DOCX: " +:+ str_exn e)], Ok EmptyString)).
Proof.
  intros Hname Hext.
  assert (Htype : lower (last_field "." (name f)) = lower ext).
  { rewrite Hname. unfold last_field.
    change ("." +:+ ext) with (String "." ext).
    now rewrite last_field_from_after. }
  split; [exact Htype |]. split.
  - intros Hpdf e He. unfold read_contract. rewrite Htype, Hpdf, He. reflexivity.
  - intros Hdocx e He. unfold read_contract. rewrite Htype, Hdocx, He. reflexivity.
Qed.

Lemma file_type_is_last_extension_witness :
  let f := mk_upload "Lease.v2.final.PDF"
             (Raise (OtherException "EOF marker not found"))
             (Raise (OtherException "File is not a zip file")) in
  read_contract (Some f) "pasted text"
  = ([st_error "Could not read PDF: EOF marker not found"], Ok EmptyString).
Proof.
  intros f.
  destruct (file_type_is_last_extension f "Lease.v2.final" "PDF" "pasted text"
              eq_refl eq_refl) as (_ & Hpdf & _).
  apply (Hpdf eq_refl (OtherException "EOF marker not found") eq_refl).
Defined.

(** X18: for an upload whose extension is [docx], the contract text is the
    texts of the paragraphs joined by line feeds; when the document cannot
    be opened the error is shown after [Could not read DOCX:] and the text
    stays empty. *)
Theorem docx_extraction (f : upload) (text_area : string) :
  lower (last_field "." (name f)) = "docx" ->
  (forall paragraphs : list string,
     Document f = Ok paragraphs ->
     read_contract (Some f) text_area = ([], Ok (join nl paragraphs))
     /\ count_char newline (join nl paragraphs)
        = (length paragraphs - 1
           + list_sum (map (count_char newline) paragraphs))%nat)
  /\ (forall e : exn,
        Document f = Raise e ->
        read_contract (Some f) text_area
        = ([st_error ("Could not read DOCX: " +:+ str_exn e)], Ok EmptyString)).
Proof.
  intros Hdocx. split.
  - intros paragraphs Hdoc. split.
    + unfold read_contract. rewrite Hdocx, Hdoc. reflexivity.
    + apply count_char_join.
  - intros e He. unfold read_contract. rewrite Hdocx, He. reflexivity.
Qed.

Lemma docx_extraction_witness :
  let f := mk_upload "nda.docx" (Raise (OtherException "EOF marker not found"))
             (Ok ["NON-DISCLOSURE AGREEMENT"; ""; "1. Definitions"]) in
  read_contract (Some f) ""
  = ([], Ok ("NON-DISCLOSURE AGREEMENT" +:+ nl +:+ nl +:+ "1. Definitions")).
Proof.
  intros f.
  destruct (docx_extraction f "" eq_refl) as [Hok _].
  destruct (Hok ["NON-DISCLOSURE AGREEMENT"; ""; "1. Definitions"] eq_refl)
    as [Hread _].
  exact Hread.
Defined.

Lemma page_texts_first_raise (before : list (option string)) (e : exn)
    (rest : list (outcome (option string))) :
  page_texts (map Ok before ++ Raise e :: rest) = Raise e.
Proof.
  induction before as [|t before IH]; [reflexivity |].
  simpl. now rewrite IH.
Qed.

(** X19: when [extract_text()] raises on some page of a PDF, the texts of
    the pages before it are dropped as well: the error of that page is
    shown and the contract text is empty. *)
Theorem pdf_page_failure_drops_all (f : upload) (text_area : string)
    (before : list (option string)) (e : exn)
    (rest : list (outcome (option string))) :
  lower (last_field "." (name f)) = "pdf" ->
  PdfReader f = Ok (map Ok before ++ Raise e :: rest) ->
  read_contract (Some f) text_area
  = ([st_error ("Could not read PDF: " +:+ str_exn e)], Ok EmptyString).
Proof.
  intros Hpdf Hpages. unfold read_contract. rewrite Hpdf, Hpages. simpl.
  now rewrite page_texts_first_raise.
Qed.

Lemma pdf_page_failure_drops_all_witness :
  let f := mk_upload "lease.pdf"
             (Ok [Ok (Some "Page one"); Ok (Some "Page two");
                  Raise (OtherException "Unsupported filter"); Ok (Some "Page four")])
             (Raise (OtherException "File is not a zip file")) in
  read_contract (Some f) ""
  = ([st_error "Could not read PDF: Unsupported filter"], Ok EmptyString).
Proof.
  intros f.
  apply (pdf_page_failure_drops_all f "" [Some "Page one"; Some "Page two"]
           (OtherException "Unsupported filter") [Ok (Some "Page four")]);
    reflexivity.
Defined.





(** X21: when the PDF reader fails on the upload and the button is clicked,
    the run shows the read error, then the warning that asks for contract
    text, and sends nothing; the text area is not consulted. *)
Theorem failed_upload_then_analyze (st : session_state) (net : transport)
    (strftime : string -> string) (f : upload) (e : exn)
    (text_area analysis_type : string) (focus_areas : list string)
    (contract_type : string) :
  lower (last_field "." (name f)) = "pdf" ->
  PdfReader f = Raise e ->
  run st net strftime
    (ContractAnalysis (Some f) text_area analysis_type focus_areas contract_type)
    true
  = ([ st_error ("Could not read PDF: " +:+ str_exn e);
       st_warning "Please provide contract text or upload a contract file to analyze." ],
     Ok tt).
Proof.
  intros Hpdf He.
  assert (Hread : read_contract (Some f) text_area
                  = ([st_error ("Could not read PDF: " +:+ str_exn e)],
                     Ok EmptyString)).
  { unfold read_contract. rewrite Hpdf, He. reflexivity. }
  unfold run. rewrite Hread. unfold bind.
  rewrite (analyze_contract_blank st net EmptyString analysis_type focus_areas
             contract_type eq_refl).
  reflexivity.
Qed.

Lemma failed_upload_then_analyze_witness :
  let f := mk_upload "lease.pdf" (Raise (OtherException "EOF marker not found"))
             (Raise (OtherException "File is not a zip file")) in
  run (mk_session "sk-test")
    (fun _ => Ok (mk_response 200 "OK" endpoint (Ok (envelope "unreachable"))))
    (fun _ => "20240131")
    (ContractAnalysis (Some f) "A full lease, pasted." "General Review" [] "Lease")
    true
  = ([ st_error "Could not read PDF: EOF marker not found";
       st_warning "Please provide contract text or upload a contract file to analyze." ],
     Ok tt).
Proof.
  intros f.
  apply (failed_upload_then_analyze (mk_session "sk-test")
           (fun _ => Ok (mk_response 200 "OK" endpoint (Ok (envelope "unreachable"))))
           (fun _ => "20240131") f (OtherException "EOF marker not found"));
    reflexivity.
Defined.

(** ** Where the key comes from *)

Lemma sidebar_key (environ : gmap string string) (stored : option string)
    (typed : string) :
  api_key (sidebar environ typed (init_session_state environ stored))
  = (if String.eqb (environ_key environ) EmptyString
     then typed
     else default (environ_key environ) stored).
Proof.
  unfold sidebar. destruct (String.eqb (environ_key environ) EmptyString).
  - simpl. destruct (String.eqb typed _) eqn:Heq; simpl; [| reflexivity].
    apply String.eqb_eq in Heq. now rewrite Heq.
  - now destruct stored.
Qed.

(** X22: the key that authorises a request: when the environment variable
    is unset or empty it is the text typed in the sidebar, whatever the
    session held before; otherwise it is the key the session holds (the
    value of the variable on the first run) and the typed text plays no
    part.  With the variable unset or empty and nothing typed, no request
    is sent. *)
Theorem credential_sourcing (environ : gmap string string) (stored : option string)
    (typed : string) (net : transport) (strftime : string -> string) (f : form)
    (clicked : bool) :
  (forall req : request,
     In req (posts (trace (script environ stored typed net strftime f clicked))) ->
     headers req
     = [ ("Authorization",
          "Bearer " +:+ (if String.eqb (environ_key environ) EmptyString
                         then typed
                         else default (environ_key environ) stored));
         ("Content-Type", "application/json") ])
  /\ (environ_key environ = EmptyString -> typed = EmptyString ->
      posts (trace (script environ stored typed net strftime f clicked)) = []).
Proof.
  unfold script. split.
  - intros req Hin.
    destruct (sends_only_run _ net strftime f clicked req Hin) as [p [sp ->]].
    simpl. now rewrite sidebar_key.
  - intros Henv Htyped.
    destruct (run_posts_cases (sidebar environ typed (init_session_state environ stored))
                net strftime f clicked) as [H | (Hk & _)]; [exact H |].
    rewrite sidebar_key, Henv, Htyped in Hk. simpl in Hk. contradiction.
Qed.

Lemma credential_sourcing_witness :
  let environ : gmap string string := {[ "OPENROUTER_API_KEY" := "sk-env" ]} in
  let net : transport := fun _ => Raise (RequestException "Connection refused") in
  headers (sent_request (mk_session "sk-env")
             (research_query "Unfair dismissal" "" [] "Employment" "Last 10 years")
             (research_system_prompt [] "Employment" "Last 10 years"))
  = [ ("Authorization", "Bearer sk-env"); ("Content-Type", "application/json") ]
  /\ posts (trace (script ∅ None "" net (fun _ => "20240131")
                     (CaseLawResearch "Unfair dismissal" "" [] "Employment"
                        "Last 10 years") true))
     = [].
Proof.
  intros environ net. split.
  - destruct (credential_sourcing environ None "sk-typed" net (fun _ => "20240131")
                (CaseLawResearch "Unfair dismissal" "" [] "Employment" "Last 10 years")
                true) as [Hheaders _].
    apply Hheaders. vm_compute. left. reflexivity.
  - destruct (credential_sourcing ∅ None "" net (fun _ => "20240131")
                (CaseLawResearch "Unfair dismissal" "" [] "Employment" "Last 10 years")
                true) as [_ Hnone].
    apply Hnone; reflexivity.
Defined.

(** ** Selections in the user prompts *)

Lemma options_repr :
  Forall (fun o => repr o = quoted o)
    (jurisdiction_options ++ geographic_options ++ compliance_area_options).
Proof. repeat constructor. Qed.

Lemma repr_list_of_options (xs : list string) :
  (forall x, In x xs ->
     In x (jurisdiction_options ++ geographic_options ++ compliance_area_options)) ->
  repr_list xs = "[" +:+ join ", " (map quoted xs) +:+ "]".
Proof.
  intros Hxs. unfold repr_list. f_equal. f_equal. f_equal.
  apply map_ext_in. intros x Hx.
  apply (proj1 (List.Forall_forall _ _) options_repr), Hxs, Hx.
Qed.

(** X23: for any selection made from the options the widgets offer, the
    user prompts of the research and compliance forms list the selected
    options each between single quotes, separated by a comma and a space,
    inside square brackets: Python's rendering of the list, with no escape
    needed for any option. *)
Theorem selections_listed_in_quotes
    (legal_issue case_context case_type time_period industry business_description
       specific_concerns business_size : string)
    (jurisdiction_filter geographic_scope compliance_areas : list string) :
  (forall x, In x jurisdiction_filter -> In x jurisdiction_options) ->
  (forall x, In x geographic_scope -> In x geographic_options) ->
  (forall x, In x compliance_areas -> In x compliance_area_options) ->
  occurs_in ("Jurisdiction: [" +:+ join ", " (map quoted jurisdiction_filter)
             +:+ "], Type: ")
    (research_query legal_issue case_context jurisdiction_filter case_type time_period)
  /\ occurs_in ("Geographic: [" +:+ join ", " (map quoted geographic_scope)
                +:+ "], Focus: [" +:+ join ", " (map quoted compliance_areas) +:+ "]")
       (compliance_query industry business_description specific_concerns
          business_size geographic_scope compliance_areas).
Proof.
  intros Hj Hg Hc. split.
  - unfold research_query. rewrite (repr_list_of_options jurisdiction_filter).
    + rewrite !append_assoc. find_occurrence.
    + intros x Hx. apply in_or_app. left. now apply Hj.
  - unfold compliance_query.
    rewrite (repr_list_of_options geographic_scope),
      (repr_list_of_options compliance_areas).
    + rewrite !append_assoc. find_occurrence.
    + intros x Hx. apply in_or_app. right. apply in_or_app. right. now apply Hc.
    + intros x Hx. apply in_or_app. right. apply in_or_app. left. now apply Hg.
Qed.

Lemma selections_listed_in_quotes_witness :
  occurs_in "Jurisdiction: ['Sabah', 'Federal'], Type: "
    (research_query "Native land rights" "" ["Sabah"; "Federal"] "Constitutional"
       "Landmark cases").
Proof.
  destruct (selections_listed_in_quotes "Native land rights" "" "Constitutional"
              "Landmark cases" "Other" "A bakery." "" "Startup/Small"
              ["Sabah"; "Federal"] [] ["Licensing"]) as [Hres _].
  - intros x [<- | [<- | []]]; vm_compute; tauto.
  - intros x [].
  - intros x [<- | []]; vm_compute; tauto.
  - exact Hres.
Defined.


